(** * weather.py: provider resolution and formatting

    A shallow embedding of [src/weather.py].  JSON payloads are the Python
    values [response.json()] produces; Python exceptions are an explicit
    error result; the network is an oracle that answers each request from
    the history of the requests made so far, and every request is logged. *)

From Stdlib Require Import ZArith List String Ascii Bool Lia.
From Stdlib Require Import Floats.PrimFloat DecimalString.
Import ListNotations.
Open Scope string_scope.
Set Warnings "-register-all,-notation-for-abbreviation".

(** ** Python values *)

(** The values [json.loads] builds: [None], [bool], [int], [float], [str],
    [list] and [dict] (insertion ordered, string keys). *)
Inductive json : Type :=
| JNull
| JBool (b : bool)
| JInt (z : Z)
| JFloat (f : float)
| JStr (s : string)
| JArr (items : list json)
| JObj (fields : list (string * json)).

(** The exception classes the program can meet; all derive from
    [Exception]. *)
Inductive exn : Type :=
| KeyError | IndexError | TypeError | AttributeError | ValueError | HTTPError.

Inductive result (A : Type) : Type :=
| Ok (a : A)
| Raise (e : exn).
Arguments Ok {A} a.
Arguments Raise {A} e.

Definition NL : string := String "010"%char EmptyString.

(** [bool(v)] *)
Definition py_truthy (v : json) : bool :=
  match v with
  | JNull => false
  | JBool b => b
  | JInt z => negb (Z.eqb z 0)
  | JFloat f => negb (PrimFloat.eqb f 0%float)
  | JStr s => negb (String.eqb s "")
  | JArr items => match items with [] => false | _ :: _ => true end
  | JObj fields => match fields with [] => false | _ :: _ => true end
  end.

(** Dictionary lookup: the first binding of the key. *)
Fixpoint lookup (k : string) (fields : list (string * json)) : option json :=
  match fields with
  | [] => None
  | (k', v) :: rest => if String.eqb k k' then Some v else lookup k rest
  end.

(** A Python [str] is a sequence of code points; the embedding keeps the
    UTF-8 bytes and cuts them into code points where the program indexes,
    measures or iterates a string. *)
Definition is_continuation (c : ascii) : bool :=
  (128 <=? nat_of_ascii c)%nat && (nat_of_ascii c <? 192)%nat.

Fixpoint split_chars (s : string) : string * list string :=
  match s with
  | EmptyString => (EmptyString, [])
  | String c rest =>
      let (k, cs) := split_chars rest in
      if is_continuation c then (String c k, cs)
      else (EmptyString, String c k :: cs)
  end.

Definition py_chars (s : string) : list string :=
  let (k, cs) := split_chars s in
  match k with EmptyString => cs | _ => k :: cs end.

(** [v[k]] for a [str] key [k] *)
Definition py_getitem (v : json) (k : string) : result json :=
  match v with
  | JObj fields =>
      match lookup k fields with Some x => Ok x | None => Raise KeyError end
  | _ => Raise TypeError
  end.

(** [v[i]] for a non-negative [int] index [i] *)
Definition py_index (v : json) (i : nat) : result json :=
  match v with
  | JArr items =>
      match nth_error items i with Some x => Ok x | None => Raise IndexError end
  | JStr s =>
      match nth_error (py_chars s) i with
      | Some c => Ok (JStr c)
      | None => Raise IndexError
      end
  | JObj _ => Raise KeyError
  | _ => Raise TypeError
  end.

(** [v.get(k, default)] *)
Definition py_get (v : json) (k : string) (default : json) : result json :=
  match v with
  | JObj fields =>
      match lookup k fields with Some x => Ok x | None => Ok default end
  | _ => Raise AttributeError
  end.

Definition is_str (k : string) (v : json) : bool :=
  match v with JStr s => String.eqb s k | _ => false end.

(** [k in v] for a [str] [k] *)
Definition py_contains (k : string) (v : json) : result bool :=
  match v with
  | JObj fields => Ok (existsb (fun kv => String.eqb k (fst kv)) fields)
  | JArr items => Ok (existsb (is_str k) items)
  | JStr s => Ok (match index 0 k s with Some _ => true | None => false end)
  | _ => Raise TypeError
  end.

(** [len(v)] *)
Definition py_len (v : json) : result nat :=
  match v with
  | JArr items => Ok (List.length items)
  | JStr s => Ok (List.length (py_chars s))
  | JObj fields => Ok (List.length fields)
  | _ => Raise TypeError
  end.

(** The items a [for] loop or a comprehension draws from [v]. *)
Definition py_iter (v : json) : result (list json) :=
  match v with
  | JArr items => Ok items
  | JStr s => Ok (map JStr (py_chars s))
  | JObj fields => Ok (map (fun kv => JStr (fst kv)) fields)
  | _ => Raise TypeError
  end.

(** [v[:n]].  Slicing a [dict] raises ([TypeError]: a slice is not
    hashable; CPython 3.12 and later report [KeyError] instead). *)
Definition py_slice_to (n : nat) (v : json) : result json :=
  match v with
  | JArr items => Ok (JArr (firstn n items))
  | JStr s => Ok (JStr (String.concat "" (firstn n (py_chars s))))
  | _ => Raise TypeError
  end.

(** [sep.join(parts)] *)
Definition join (sep : string) (parts : list string) : string :=
  String.concat sep parts.

(** ** Requests and responses *)

Record request : Type := mkRequest {
  req_url : string;
  req_params : list (string * string);
  req_headers : list (string * string);
  req_timeout : Z
}.

(** What the program observes of an HTTP response: its status and what
    [response.json()] gives ([None] here when decoding raises). *)
Record response : Type := mkResponse {
  status_code : Z;
  json_body : option json
}.

(** [client.get] either raises (timeout, connection failure, unsupported
    URL) or returns a response. *)
Inductive transport : Type :=
| Failed
| Got (r : response).

(** ** Computations: a request log threaded through, exceptions as results *)

Definition M (A : Type) : Type := list request -> result A * list request.

Definition ret {A : Type} (a : A) : M A := fun log => (Ok a, log).

Definition raise {A : Type} (e : exn) : M A := fun log => (Raise e, log).

Definition lift {A : Type} (r : result A) : M A := fun log => (r, log).

Definition bind {A B : Type} (m : M A) (k : A -> M B) : M B :=
  fun log =>
    match m log with
    | (Ok a, log') => k a log'
    | (Raise e, log') => (Raise e, log')
    end.

(** [try: body  except Exception: handler] *)
Definition try_except {A : Type} (body handler : M A) : M A :=
  fun log =>
    match body log with
    | (Ok a, log') => (Ok a, log')
    | (Raise _, log') => handler log'
    end.

Notation "x <- m ;; k" := (bind m (fun x => k))
  (at level 61, m at next level, right associativity).

(** Constants *)
Definition NWS_API_BASE : string := "https://api.weather.gov".
Definition USER_AGENT : string := "weather-app/1.0".
Definition GEOCODE_API_BASE : string :=
  "https://nominatim.openstreetmap.org/search".
Definition DELIMITER : string := NL ++ "---" ++ NL.

Definition MSG_GEOCODE_FAILED : string :=
  "Unable to geocode the provided location.".
Definition MSG_ALERTS_UNAVAILABLE : string :=
  "Unable to fetch alerts or no alerts found.".
Definition MSG_NO_ALERTS : string := "No active alerts for this state.".
Definition MSG_NO_PROVIDER : string :=
  "Unable to fetch forecast data from any provider.".

(** Sequencing of operations that may raise but make no request. *)
Definition and_then {A B : Type} (r : result A) (k : A -> result B)
  : result B :=
  match r with
  | Ok a => k a
  | Raise e => Raise e
  end.

Notation "x <~ r ;; k" := (and_then r (fun x => k))
  (at level 61, r at next level, right associativity).

Fixpoint traverse {A B : Type} (f : A -> result B) (xs : list A)
  : result (list B) :=
  match xs with
  | [] => Ok []
  | x :: rest => y <~ f x ;; ys <~ traverse f rest ;; Ok (y :: ys)
  end.

Section Weather.

(** [str(v)] of a [float], a [list] or a [dict] is the interpreter's
    [repr]; [float(v)] of a [str], an [int] or a [bool] is its conversion
    ([None] when it raises).  Both belong to the interpreter, not to the
    program, and are left open. *)
Variable py_repr : json -> string.
Variable float_conv : json -> option float.

(** The environment variable [CONTACT_EMAIL], when set. *)
Variable CONTACT_EMAIL : option string.

(** The network: the answer to a request, given the requests already made. *)
Variable net : list request -> request -> transport.

(** [str(v)], as an f-string renders a replacement field. *)
Definition py_str (v : json) : string :=
  match v with
  | JStr s => s
  | JNull => "None"
  | JBool true => "True"
  | JBool false => "False"
  | JInt z => NilZero.string_of_int (Z.to_int z)
  | _ => py_repr v
  end.

(** [float(v)] *)
Definition py_float (v : json) : result float :=
  match v with
  | JFloat f => Ok f
  | JNull | JArr _ | JObj _ => Raise TypeError
  | _ => match float_conv v with Some f => Ok f | None => Raise ValueError end
  end.

Definition GEOCODE_USER_AGENT : string :=
  "weather-app/1.0 ("
  ++ match CONTACT_EMAIL with Some e => e | None => "contact@example.com" end
  ++ ")".

(** [await client.get(...)] with a [str] URL: the request is logged and
    the network answers. *)
Definition http_get (r : request) : M response :=
  fun log =>
    match net log r with
    | Failed => (Raise HTTPError, (log ++ [r])%list)
    | Got resp => (Ok resp, (log ++ [r])%list)
    end.

(** [client.get(url, ...)] for a URL taken from a payload: anything but a
    [str] is refused before a request is made. *)
Definition client_get (url : json) (headers : list (string * string))
  : M response :=
  match url with
  | JStr u => http_get (mkRequest u [] headers 30)
  | _ => raise TypeError
  end.

(** [response.raise_for_status()], a method of the HTTP client library:
    every status outside 2xx raises. *)
Definition raise_for_status (resp : response) : result unit :=
  if (200 <=? status_code resp)%Z && (status_code resp <=? 299)%Z
  then Ok tt else Raise HTTPError.

(** [response.json()] *)
Definition response_json (resp : response) : result json :=
  match json_body resp with
  | Some v => Ok v
  | None => Raise ValueError
  end.

Definition nws_headers : list (string * string) :=
  [("User-Agent", USER_AGENT); ("Accept", "application/geo+json")].

Definition make_nws_request (url : json) : M json :=
  try_except
    (response <- client_get url nws_headers ;;
     _ <- lift (raise_for_status response) ;;
     lift (response_json response))
    (ret JNull).

Definition geocode_request (q : string) : request :=
  mkRequest GEOCODE_API_BASE
    [("q", q); ("format", "json"); ("limit", "1")]
    [("User-Agent", GEOCODE_USER_AGENT); ("Accept", "application/json")]
    30.

Definition make_geocode_request (q : string) : M json :=
  try_except
    (resp <- http_get (geocode_request q) ;;
     _ <- lift (raise_for_status resp) ;;
     data <- lift (response_json resp) ;;
     if negb (py_truthy data) then ret JNull
     else
       item <- lift (py_index data 0) ;;
       lat <- lift (v <~ py_getitem item "lat" ;; py_float v) ;;
       lon <- lift (v <~ py_getitem item "lon" ;; py_float v) ;;
       display_name <- lift (py_get item "display_name" JNull) ;;
       ret (JObj [("latitude", JFloat lat); ("longitude", JFloat lon);
                  ("display_name", display_name)]))
    (ret JNull).

Definition format_alert (feature : json) : result string :=
  props <~ py_getitem feature "properties" ;;
  event <~ py_get props "event" (JStr "Unknown") ;;
  area <~ py_get props "areaDesc" (JStr "Unknown") ;;
  severity <~ py_get props "severity" (JStr "Unknown") ;;
  description <~ py_get props "description"
                   (JStr "No description available") ;;
  instruction <~ py_get props "instruction"
                   (JStr "No specific instructions provided") ;;
  Ok (NL ++ "Event: " ++ py_str event ++ NL
      ++ "Area: " ++ py_str area ++ NL
      ++ "Severity: " ++ py_str severity ++ NL
      ++ "Description: " ++ py_str description ++ NL
      ++ "Instructions: " ++ py_str instruction ++ NL).

Definition openmeteo_url (latitude longitude : float) : string :=
  "https://api.open-meteo.com/v1/forecast?latitude="
  ++ py_str (JFloat latitude) ++ "&longitude=" ++ py_str (JFloat longitude)
  ++ "&current_weather=true&hourly=temperature_2m,relative_humidity_2m,wind_speed_10m,wind_direction_10m&daily=temperature_2m_max,temperature_2m_min,weathercode&timezone=auto&forecast_days=3".

Definition openmeteo_request (latitude longitude : float) : request :=
  mkRequest (openmeteo_url latitude longitude) [] [] 30.

Definition make_openmeteo_request (latitude longitude : float) : M json :=
  try_except
    (response <- http_get (openmeteo_request latitude longitude) ;;
     _ <- lift (raise_for_status response) ;;
     lift (response_json response))
    (ret JNull).

(** One pass of the loop body of [format_openmeteo_forecast]. *)
Definition daily_line (daily : json) (i : nat) : result string :=
  date <~ (t <~ py_getitem daily "time" ;; py_index t i) ;;
  max_temp <~ (t <~ py_getitem daily "temperature_2m_max" ;; py_index t i) ;;
  min_temp <~ (t <~ py_getitem daily "temperature_2m_min" ;; py_index t i) ;;
  code <~ (t <~ py_getitem daily "weathercode" ;; py_index t i) ;;
  Ok (py_str date ++ ": High " ++ py_str max_temp ++ "°C, Low "
      ++ py_str min_temp ++ "°C, Code " ++ py_str code ++ NL).

(** The loop: [forecast += line] for each index in turn. *)
Fixpoint daily_loop (daily : json) (indices : list nat) (forecast : string)
  : result string :=
  match indices with
  | [] => Ok forecast
  | i :: rest =>
      line <~ daily_line daily i ;;
      daily_loop daily rest (forecast ++ line)
  end.

Definition format_openmeteo_forecast (data : json) : result string :=
  current <~ py_get data "current_weather" (JObj []) ;;
  daily <~ py_get data "daily" (JObj []) ;;
  temperature <~ py_get current "temperature" (JStr "N/A") ;;
  windspeed <~ py_get current "windspeed" (JStr "N/A") ;;
  winddirection <~ py_get current "winddirection" (JStr "N/A") ;;
  weathercode <~ py_get current "weathercode" (JStr "N/A") ;;
  let forecast :=
    NL ++ "Current Weather:" ++ NL
    ++ "Temperature: " ++ py_str temperature ++ "°C" ++ NL
    ++ "Wind: " ++ py_str windspeed ++ " km/h from "
    ++ py_str winddirection ++ "°" ++ NL
    ++ "Weather Code: " ++ py_str weathercode
    ++ " (see https://open-meteo.com/en/docs for codes)" ++ NL
    ++ NL
    ++ "Next 3 Days Forecast:" ++ NL in
  n <~ (t <~ py_get daily "time" (JArr []) ;; py_len t) ;;
  daily_loop daily (seq 0 (Nat.min 3 n)) forecast.

(** ** Tools *)

Definition geocode_city (city : string) : M json :=
  result <- make_geocode_request city ;;
  if negb (py_truthy result) then ret (JStr MSG_GEOCODE_FAILED)
  else ret result.

Definition alerts_url (state : string) : string :=
  NWS_API_BASE ++ "/alerts/active/area/" ++ state.

Definition get_alerts (state : string) : M string :=
  data <- make_nws_request (JStr (alerts_url state)) ;;
  missing <- lift (if negb (py_truthy data) then Ok true
                   else c <~ py_contains "features" data ;; Ok (negb c)) ;;
  if (missing : bool) then ret MSG_ALERTS_UNAVAILABLE
  else
    features <- lift (py_getitem data "features") ;;
    if negb (py_truthy features) then ret MSG_NO_ALERTS
    else
      alerts <- lift (features <~ py_getitem data "features" ;;
                      items <~ py_iter features ;;
                      traverse format_alert items) ;;
      ret (join DELIMITER alerts).

(** The f-string of the loop body of [get_forecast]. *)
Definition format_period (period : json) : result string :=
  name <~ py_getitem period "name" ;;
  temperature <~ py_getitem period "temperature" ;;
  temperatureUnit <~ py_getitem period "temperatureUnit" ;;
  windSpeed <~ py_getitem period "windSpeed" ;;
  windDirection <~ py_getitem period "windDirection" ;;
  detailedForecast <~ py_getitem period "detailedForecast" ;;
  Ok (NL ++ py_str name ++ ":" ++ NL
      ++ "Temperature: " ++ py_str temperature ++ "°"
      ++ py_str temperatureUnit ++ NL
      ++ "Wind: " ++ py_str windSpeed ++ " " ++ py_str windDirection ++ NL
      ++ "Forecast: " ++ py_str detailedForecast ++ NL).

Definition points_url (latitude longitude : float) : string :=
  NWS_API_BASE ++ "/points/" ++ py_str (JFloat latitude) ++ ","
  ++ py_str (JFloat longitude).

Definition nws_request (url : string) : request :=
  mkRequest url [] nws_headers 30.

Definition get_forecast (latitude longitude : float) : M string :=
  let fallback : M string :=
    openmeteo_data <- make_openmeteo_request latitude longitude ;;
    if py_truthy openmeteo_data
    then lift (format_openmeteo_forecast openmeteo_data)
    else ret MSG_NO_PROVIDER in
  points_data <- make_nws_request (JStr (points_url latitude longitude)) ;;
  if py_truthy points_data then
    forecast_url <- lift (p <~ py_getitem points_data "properties" ;;
                          py_getitem p "forecast") ;;
    forecast_data <- make_nws_request forecast_url ;;
    if py_truthy forecast_data then
      periods <- lift (p <~ py_getitem forecast_data "properties" ;;
                       py_getitem p "periods") ;;
      forecasts <- lift (head <~ py_slice_to 5 periods ;;
                         items <~ py_iter head ;;
                         traverse format_period items) ;;
      ret (join DELIMITER forecasts)
    else fallback
  else fallback.

End Weather.

(** ** Specification vocabulary *)

(** What a request helper hands back for an answer of the network: the
    decoded body of a 2xx response, [None] for anything else. *)
Definition payload_of (t : transport) : json :=
  match t with
  | Failed => JNull
  | Got r =>
      match raise_for_status r, json_body r with
      | Ok _, Some v => v
      | _, _ => JNull
      end
  end.

(** The geocoding answers that give no usable match: the call fails, the
    status is an error, the body does not decode, the body is empty
    (zero matches), or the first match cannot be read. *)
Inductive geocode_not_found (float_conv : json -> option float)
  : transport -> Prop :=
| nf_call_failed : geocode_not_found float_conv Failed
| nf_error_status r :
    raise_for_status r = Raise HTTPError ->
    geocode_not_found float_conv (Got r)
| nf_undecodable r :
    json_body r = None -> geocode_not_found float_conv (Got r)
| nf_zero_matches r data :
    json_body r = Some data -> py_truthy data = false ->
    geocode_not_found float_conv (Got r)
| nf_no_first_match r data e :
    json_body r = Some data -> py_index data 0 = Raise e ->
    geocode_not_found float_conv (Got r)
| nf_bad_latitude r data item e :
    json_body r = Some data -> py_index data 0 = Ok item ->
    (v <~ py_getitem item "lat" ;; py_float float_conv v) = Raise e ->
    geocode_not_found float_conv (Got r)
| nf_bad_longitude r data item e :
    json_body r = Some data -> py_index data 0 = Ok item ->
    (v <~ py_getitem item "lon" ;; py_float float_conv v) = Raise e ->
    geocode_not_found float_conv (Got r).

(** The text of an alert whose five fields are all absent. *)
Definition ALERT_PLACEHOLDERS : string :=
  NL ++ "Event: Unknown" ++ NL
  ++ "Area: Unknown" ++ NL
  ++ "Severity: Unknown" ++ NL
  ++ "Description: No description available" ++ NL
  ++ "Instructions: No specific instructions provided" ++ NL.

(** The block [get_forecast] writes for one period. *)
Definition period_text (py_repr : json -> string)
  (name temperature unit windSpeed windDirection detailed : json) : string :=
  NL ++ py_str py_repr name ++ ":" ++ NL
  ++ "Temperature: " ++ py_str py_repr temperature ++ "°"
  ++ py_str py_repr unit ++ NL
  ++ "Wind: " ++ py_str py_repr windSpeed ++ " "
  ++ py_str py_repr windDirection ++ NL
  ++ "Forecast: " ++ py_str py_repr detailed ++ NL.

(** What the fallback leg of [get_forecast] returns for a fallback
    payload. *)
Definition fallback_result (py_repr : json -> string) (openmeteo_data : json)
  : result string :=
  if py_truthy openmeteo_data
  then format_openmeteo_forecast py_repr openmeteo_data
  else Ok MSG_NO_PROVIDER.

(** The forecast reference inside a points payload, and the period list
    inside a forecast payload. *)
Definition forecast_ref (points_data : json) : result json :=
  p <~ py_getitem points_data "properties" ;; py_getitem p "forecast".

Definition periods_of (forecast_data : json) : result json :=
  p <~ py_getitem forecast_data "properties" ;; py_getitem p "periods".

(** The specification's [fetchForecast] (4.2): the period list the two
    dependent authoritative lookups yield, [None] for [Unavailable]. *)
Definition fetch_forecast (py_repr : json -> string)
  (net : list request -> request -> transport)
  (latitude longitude : float) (log : list request) : option (list json) :=
  let req := nws_request (points_url py_repr latitude longitude) in
  match forecast_ref (payload_of (net log req)) with
  | Ok (JStr u) =>
      match periods_of (payload_of (net (log ++ [req])%list (nws_request u)))
      with
      | Ok (JArr periods) => Some periods
      | _ => None
      end
  | _ => None
  end.

(** C2 as the specification words it: the authoritative result is returned
    (the fallback is not consulted) only when both lookups succeed and the
    period list is non-empty. *)
Definition authoritative_only_if_nonempty (py_repr : json -> string)
  (net : list request -> request -> transport)
  (latitude longitude : float) : Prop :=
  forall out log',
    get_forecast py_repr net latitude longitude [] = (Ok out, log') ->
    ~ In (openmeteo_request py_repr latitude longitude) log' ->
    exists p ps, fetch_forecast py_repr net latitude longitude [] = Some (p :: ps).

(** [fields.get(k, default)] on a dictionary, as a value. *)
Definition get_or (k : string) (fields : list (string * json))
  (default : json) : json :=
  match lookup k fields with Some v => v | None => default end.

(** The text of an alert record with the given properties. *)
Definition alert_text (py_repr : json -> string)
  (props : list (string * json)) : string :=
  NL ++ "Event: " ++ py_str py_repr (get_or "event" props (JStr "Unknown"))
  ++ NL
  ++ "Area: " ++ py_str py_repr (get_or "areaDesc" props (JStr "Unknown"))
  ++ NL
  ++ "Severity: "
  ++ py_str py_repr (get_or "severity" props (JStr "Unknown")) ++ NL
  ++ "Description: "
  ++ py_str py_repr
       (get_or "description" props (JStr "No description available")) ++ NL
  ++ "Instructions: "
  ++ py_str py_repr
       (get_or "instruction" props (JStr "No specific instructions provided"))
  ++ NL.

(** The head of the fallback report for a current-weather block: each
    scalar that is absent shows as N/A. *)
Definition current_block (py_repr : json -> string)
  (current : list (string * json)) : string :=
  NL ++ "Current Weather:" ++ NL
  ++ "Temperature: "
  ++ py_str py_repr (get_or "temperature" current (JStr "N/A")) ++ "°C" ++ NL
  ++ "Wind: " ++ py_str py_repr (get_or "windspeed" current (JStr "N/A"))
  ++ " km/h from "
  ++ py_str py_repr (get_or "winddirection" current (JStr "N/A")) ++ "°" ++ NL
  ++ "Weather Code: "
  ++ py_str py_repr (get_or "weathercode" current (JStr "N/A"))
  ++ " (see https://open-meteo.com/en/docs for codes)" ++ NL
  ++ NL
  ++ "Next 3 Days Forecast:" ++ NL.

(** One daily line of the fallback report. *)
Definition daily_text (py_repr : json -> string)
  (date max_temp min_temp code : json) : string :=
  py_str py_repr date ++ ": High " ++ py_str py_repr max_temp ++ "°C, Low "
  ++ py_str py_repr min_temp ++ "°C, Code " ++ py_str py_repr code ++ NL.

(** What [get_alerts] reports for a payload of the alerts resource:
    nothing usable or no [features] field, an empty feature list, or a
    list of alerts each of which formats. *)
Inductive alerts_report (py_repr : json -> string) : json -> string -> Prop :=
| report_unavailable :
    alerts_report py_repr JNull MSG_ALERTS_UNAVAILABLE
| report_no_features fields :
    lookup "features" fields = None ->
    alerts_report py_repr (JObj fields) MSG_ALERTS_UNAVAILABLE
| report_no_alerts fields :
    lookup "features" fields = Some (JArr []) ->
    alerts_report py_repr (JObj fields) MSG_NO_ALERTS
| report_alerts fields feature features blocks :
    lookup "features" fields = Some (JArr (feature :: features)) ->
    Forall2 (fun x b => format_alert py_repr x = Ok b)
      (feature :: features) blocks ->
    alerts_report py_repr (JObj fields) (join DELIMITER blocks).

(** The daily lines of the fallback report: one for each index below
    [min(3, len(time))], read at that index of the four arrays. *)
Definition daily_lines (py_repr : json -> string)
  (times maxs mins codes : list json) : list string :=
  map (fun i => daily_text py_repr (nth i times JNull) (nth i maxs JNull)
                  (nth i mins JNull) (nth i codes JNull))
    (seq 0 (Nat.min 3 (List.length times))).

(** The record [make_geocode_request] builds from a match. *)
Definition geocode_record (latitude longitude : float) (display_name : json)
  : json :=
  JObj [("latitude", JFloat latitude); ("longitude", JFloat longitude);
        ("display_name", display_name)].

(** ** Example worlds *)

(** Renderings for the examples, which print no container and only the
    two coordinates below. *)
Definition ex_repr (v : json) : string :=
  match v with
  | JFloat f =>
      if PrimFloat.eqb f 40.5%float then "40.5"
      else if PrimFloat.eqb f (-74.25)%float then "-74.25"
      else "nan"
  | _ => ""
  end.

Definition ex_conv (v : json) : option float :=
  match v with
  | JStr "40.5" => Some 40.5%float
  | JStr "-74.25" => Some (-74.25)%float
  | _ => None
  end.

Definition ok_response (v : json) : transport := Got (mkResponse 200 (Some v)).

(** A network that answers every request with the same thing. *)
Definition always (t : transport) : list request -> request -> transport :=
  fun _ _ => t.

(** A network that answers the n-th request with the n-th entry of a
    script and fails afterwards. *)
Definition scripted (script : list transport)
  : list request -> request -> transport :=
  fun log _ => nth (List.length log) script Failed.

Definition ex_lat : float := 40.5%float.
Definition ex_lon : float := (-74.25)%float.

Definition ex_forecast_url : string :=
  "https://api.weather.gov/gridpoints/OKX/33,35/forecast".

Definition ex_points : json :=
  JObj [("properties", JObj [("forecast", JStr ex_forecast_url)])].

Definition ex_period (name : string) (temperature : Z) : json :=
  JObj [("name", JStr name); ("temperature", JInt temperature);
        ("temperatureUnit", JStr "F"); ("windSpeed", JStr "5 mph");
        ("windDirection", JStr "NW"); ("detailedForecast", JStr "Clear.")].

Definition ex_forecast (periods : list json) : json :=
  JObj [("properties", JObj [("periods", JArr periods)])].

Definition ex_period_without_name : json :=
  JObj [("temperature", JInt 71);
        ("temperatureUnit", JStr "F"); ("windSpeed", JStr "5 mph");
        ("windDirection", JStr "NW"); ("detailedForecast", JStr "Clear.")].

Definition ex_daily_without_codes : json :=
  JObj [("current_weather", JObj [("temperature", JInt 18)]);
        ("daily", JObj [("time", JArr [JStr "2024-05-01"]);
                        ("temperature_2m_max", JArr [JInt 21]);
                        ("temperature_2m_min", JArr [JInt 12])])].

Definition ex_days : list json :=
  [JStr "2024-05-01"; JStr "2024-05-02"; JStr "2024-05-03";
   JStr "2024-05-04"; JStr "2024-05-05"].

Definition ex_fallback : json :=
  JObj [("daily",
         JObj [("time", JArr ex_days);
               ("temperature_2m_max",
                JArr [JInt 21; JInt 22; JInt 23; JInt 24; JInt 25]);
               ("temperature_2m_min",
                JArr [JInt 11; JInt 12; JInt 13; JInt 14; JInt 15]);
               ("weathercode",
                JArr [JInt 0; JInt 1; JInt 2; JInt 3; JInt 61])])].

Definition ex_feature (event : string) : json :=
  JObj [("properties", JObj [("event", JStr event)])].

(** Unfolding steps, fixed here so that they name the program's functions
    whatever the local abbreviations in force. *)
Ltac run_steps :=
  unfold try_except, bind, client_get, http_get, lift, ret, raise,
    response_json.
Ltac open_make_nws_request := unfold make_nws_request, nws_request; run_steps.
Ltac open_make_openmeteo_request := unfold make_openmeteo_request; run_steps.
Ltac open_make_geocode_request := unfold make_geocode_request; run_steps.
Ltac open_geocode_city := unfold geocode_city, bind, ret.
Ltac open_get_alerts := unfold get_alerts, bind, lift, ret.
Ltac open_get_forecast := unfold get_forecast; cbv zeta; unfold bind, lift, ret.
Ltac open_format_alert := unfold format_alert, py_getitem, py_get, and_then.
Ltac open_format_period := unfold format_period, py_getitem, and_then.
Ltac open_format_openmeteo_forecast := unfold format_openmeteo_forecast.

Section Properties.

Variable py_repr : json -> string.
Variable float_conv : json -> option float.
Variable CONTACT_EMAIL : option string.
Variable net : list request -> request -> transport.

Local Notation make_nws_request := (make_nws_request net).
Local Notation make_openmeteo_request := (make_openmeteo_request py_repr net).
Local Notation make_geocode_request :=
  (make_geocode_request float_conv CONTACT_EMAIL net).
Local Notation geocode_city := (geocode_city float_conv CONTACT_EMAIL net).
Local Notation geocode_request := (geocode_request CONTACT_EMAIL).
Local Notation get_alerts := (get_alerts py_repr net).
Local Notation get_forecast := (get_forecast py_repr net).
Local Notation format_alert := (format_alert py_repr).
Local Notation format_period := (format_period py_repr).
Local Notation format_openmeteo_forecast := (format_openmeteo_forecast py_repr).
Local Notation points_url := (points_url py_repr).
Local Notation openmeteo_request := (openmeteo_request py_repr).
Local Notation py_str := (py_str py_repr).

(** *** The request helpers *)

Lemma make_nws_request_str (u : string) (log : list request) :
  make_nws_request (JStr u) log
  = (Ok (payload_of (net log (nws_request u))), (log ++ [nws_request u])%list).
Proof.
  open_make_nws_request. unfold payload_of.
  destruct (net log _) as [|r]; [reflexivity|].
  destruct (raise_for_status r); [|reflexivity].
  destruct (json_body r); reflexivity.
Qed.

Lemma make_nws_request_not_str (url : json) (log : list request) :
  (forall u, url <> JStr u) ->
  make_nws_request url log = (Ok JNull, log).
Proof.
  intros H. destruct url; try reflexivity. exfalso. eapply H. reflexivity.
Qed.

Lemma make_openmeteo_request_run (lat lon : float) (log : list request) :
  make_openmeteo_request lat lon log
  = (Ok (payload_of (net log (openmeteo_request lat lon))),
     (log ++ [openmeteo_request lat lon])%list).
Proof.
  open_make_openmeteo_request. unfold payload_of.
  destruct (net log _) as [|r]; [reflexivity|].
  destruct (raise_for_status r); [|reflexivity].
  destruct (json_body r); reflexivity.
Qed.

(** The geocoding helper swallows every exception and makes one request. *)
Lemma make_geocode_request_total (q : string) (log : list request) :
  exists v, make_geocode_request q log
            = (Ok v, (log ++ [geocode_request q])%list).
Proof.
  open_make_geocode_request.
  destruct (net log _) as [|r]; [eauto|].
  destruct (raise_for_status r); [|eauto].
  destruct (json_body r) as [data|]; [|eauto].
  destruct (negb (py_truthy data)); [eauto|].
  destruct (py_index data 0) as [item|]; [|eauto].
  destruct (and_then (py_getitem item "lat") _); [|eauto].
  destruct (and_then (py_getitem item "lon") _); [|eauto].
  destruct (py_get item "display_name" JNull); eauto.
Qed.

Lemma make_geocode_request_not_found (q : string) (log : list request) :
  geocode_not_found float_conv (net log (geocode_request q)) ->
  make_geocode_request q log = (Ok JNull, (log ++ [geocode_request q])%list).
Proof.
  open_make_geocode_request.
  intros H. inversion H as [E|r Hs E|r Hb E|r d Hb Ht E|r d e Hb Hi E
                            |r d it e Hb Hi Hl E|r d it e Hb Hi Hl E];
    try rewrite Hs; try rewrite Hb; try reflexivity.
  - destruct (raise_for_status r); reflexivity.
  - destruct (raise_for_status r); [|reflexivity]. rewrite Ht. reflexivity.
  - destruct (raise_for_status r); [|reflexivity].
    destruct (negb (py_truthy d)); [reflexivity|]. rewrite Hi. reflexivity.
  - destruct (raise_for_status r); [|reflexivity].
    destruct (negb (py_truthy d)); [reflexivity|]. rewrite Hi, Hl. reflexivity.
  - destruct (raise_for_status r); [|reflexivity].
    destruct (negb (py_truthy d)); [reflexivity|]. rewrite Hi.
    destruct (and_then (py_getitem it "lat") _); [|reflexivity].
    rewrite Hl. reflexivity.
Qed.

(** [geocode_city] itself never raises: it hands back a value after one
    request. *)
Lemma geocode_city_total (q : string) (log : list request) :
  exists v, geocode_city q log = (Ok v, (log ++ [geocode_request q])%list).
Proof.
  open_geocode_city.
  destruct (make_geocode_request_total q log) as [v ->].
  destruct (negb (py_truthy v)); eauto.
Qed.

(** C9: when the geocoding provider gives no usable match (the call fails,
    the status is an error, the body does not decode, it holds zero matches,
    or its first match cannot be read), [geocode_city] returns the fixed
    not-found string: a string, not a structured result, and no exception. *)
Theorem geocode_city_not_found (q : string) (log : list request) :
  geocode_not_found float_conv (net log (geocode_request q)) ->
  geocode_city q log
  = (Ok (JStr MSG_GEOCODE_FAILED), (log ++ [geocode_request q])%list).
Proof.
  intros H. open_geocode_city.
  rewrite (make_geocode_request_not_found q log H). reflexivity.
Qed.

(** C8: an alert record none of whose five fields is present formats to
    exactly the five placeholder lines, in the order event, area, severity,
    description, instructions. *)
Theorem format_alert_all_absent (fields props : list (string * json)) :
  lookup "properties" fields = Some (JObj props) ->
  lookup "event" props = None ->
  lookup "areaDesc" props = None ->
  lookup "severity" props = None ->
  lookup "description" props = None ->
  lookup "instruction" props = None ->
  format_alert (JObj fields) = Ok ALERT_PLACEHOLDERS.
Proof.
  intros Hp He Ha Hs Hd Hi.
  open_format_alert.
  rewrite Hp. cbn iota beta. rewrite He, Ha, Hs, Hd, Hi. reflexivity.
Qed.

(** *** Small facts about values *)

Lemma lookup_truthy (k : string) (fields : list (string * json)) (v : json) :
  lookup k fields = Some v -> py_truthy (JObj fields) = true.
Proof. destruct fields; [discriminate | reflexivity]. Qed.

Lemma forecast_ref_truthy (points_data url : json) :
  forecast_ref points_data = Ok url -> py_truthy points_data = true.
Proof.
  unfold forecast_ref, py_getitem, and_then.
  destruct points_data as [| | | | | |fields]; try discriminate.
  destruct (lookup "properties" fields) eqn:E; [|discriminate].
  intros _. eapply lookup_truthy; eassumption.
Qed.

Lemma periods_of_truthy (forecast_data periods : json) :
  periods_of forecast_data = Ok periods -> py_truthy forecast_data = true.
Proof.
  unfold periods_of, py_getitem, and_then.
  destruct forecast_data as [| | | | | |fields]; try discriminate.
  destruct (lookup "properties" fields) eqn:E; [|discriminate].
  intros _. eapply lookup_truthy; eassumption.
Qed.

Lemma traverse_ok {A B : Type} (f : A -> result B) (xs : list A)
  (ys : list B) :
  Forall2 (fun x y => f x = Ok y) xs ys -> traverse f xs = Ok ys.
Proof.
  induction 1 as [|x y xs ys Hx _ IH]; cbn [traverse and_then].
  - reflexivity.
  - rewrite Hx, IH. reflexivity.
Qed.

Lemma format_period_ok (fields : list (string * json))
  (name temperature unit windSpeed windDirection detailed : json) :
  lookup "name" fields = Some name ->
  lookup "temperature" fields = Some temperature ->
  lookup "temperatureUnit" fields = Some unit ->
  lookup "windSpeed" fields = Some windSpeed ->
  lookup "windDirection" fields = Some windDirection ->
  lookup "detailedForecast" fields = Some detailed ->
  format_period (JObj fields)
  = Ok (period_text py_repr name temperature unit windSpeed windDirection
          detailed).
Proof.
  intros H1 H2 H3 H4 H5 H6. open_format_period.
  rewrite H1, H2, H3, H4, H5, H6. reflexivity.
Qed.

(** *** The three legs of [get_forecast] *)

(** The points lookup gives nothing: one authoritative request, then the
    fallback. *)
Lemma get_forecast_points_unavailable (lat lon : float) (log : list request) :
  let req := nws_request (points_url lat lon) in
  py_truthy (payload_of (net log req)) = false ->
  get_forecast lat lon log
  = (fallback_result py_repr
       (payload_of (net (log ++ [req]) (openmeteo_request lat lon))),
     (log ++ [req; openmeteo_request lat lon])%list).
Proof.
  intros req H. open_get_forecast.
  rewrite make_nws_request_str. fold req. rewrite H.
  rewrite make_openmeteo_request_run. unfold fallback_result.
  rewrite <- app_assoc. cbn [app].
  destruct (py_truthy (payload_of (net (log ++ [req])
                                     (openmeteo_request lat lon))));
    reflexivity.
Qed.

(** The points lookup succeeds, the forecast lookup gives nothing: two
    authoritative requests, then the fallback. *)
Lemma get_forecast_forecast_unavailable (lat lon : float)
  (log : list request) (u : string) :
  let req := nws_request (points_url lat lon) in
  forecast_ref (payload_of (net log req)) = Ok (JStr u) ->
  py_truthy (payload_of (net (log ++ [req]) (nws_request u))) = false ->
  get_forecast lat lon log
  = (fallback_result py_repr
       (payload_of (net (log ++ [req; nws_request u])
                      (openmeteo_request lat lon))),
     (log ++ [req; nws_request u; openmeteo_request lat lon])%list).
Proof.
  intros req Hu H. open_get_forecast.
  rewrite make_nws_request_str. fold req.
  rewrite (forecast_ref_truthy _ _ Hu).
  unfold forecast_ref in Hu. rewrite Hu.
  rewrite make_nws_request_str. rewrite H.
  rewrite make_openmeteo_request_run. unfold fallback_result.
  repeat rewrite <- app_assoc. cbn [app].
  destruct (py_truthy (payload_of (net (log ++ [req; nws_request u])
                                     (openmeteo_request lat lon))));
    reflexivity.
Qed.

(** Both lookups succeed: the first five periods are formatted and joined,
    and the fallback is not consulted. *)
Lemma get_forecast_authoritative (lat lon : float) (log : list request)
  (u : string) (periods : list json) (blocks : list string) :
  let req := nws_request (points_url lat lon) in
  forecast_ref (payload_of (net log req)) = Ok (JStr u) ->
  periods_of (payload_of (net (log ++ [req]) (nws_request u)))
  = Ok (JArr periods) ->
  Forall2 (fun p b => format_period p = Ok b) (firstn 5 periods) blocks ->
  get_forecast lat lon log
  = (Ok (join DELIMITER blocks), (log ++ [req; nws_request u])%list).
Proof.
  intros req Hu Hp Hb. open_get_forecast.
  rewrite make_nws_request_str. fold req.
  rewrite (forecast_ref_truthy _ _ Hu).
  unfold forecast_ref in Hu. rewrite Hu.
  rewrite make_nws_request_str.
  rewrite (periods_of_truthy _ _ Hp).
  unfold periods_of in Hp. rewrite Hp.
  cbn [py_slice_to py_iter and_then].
  rewrite (traverse_ok _ _ _ Hb).
  rewrite <- app_assoc. reflexivity.
Qed.

(** C10: when both authoritative calls succeed and the period list is
    empty, [get_forecast] returns the empty string after the two
    authoritative requests: the fallback provider is not asked and the
    result is not the no-provider message. *)
Theorem get_forecast_empty_periods (lat lon : float) (log : list request)
  (u : string) :
  let req := nws_request (points_url lat lon) in
  forecast_ref (payload_of (net log req)) = Ok (JStr u) ->
  periods_of (payload_of (net (log ++ [req]) (nws_request u))) = Ok (JArr []) ->
  get_forecast lat lon log = (Ok "", (log ++ [req; nws_request u])%list)
  /\ ~ In (openmeteo_request lat lon) [req; nws_request u]
  /\ "" <> MSG_NO_PROVIDER.
Proof.
  intros req Hu Hp. split; [|split].
  - apply (get_forecast_authoritative lat lon log u [] [] Hu Hp).
    constructor.
  - intros [H | [H | []]]; discriminate H.
  - discriminate.
Qed.

(** C6: when the authoritative provider returns seven periods, the output
    is the blocks of the first five, in the provider's order, joined by the
    delimiter; the sixth and seventh periods play no part. *)
Theorem get_forecast_seven_periods (lat lon : float) (log : list request)
  (u : string) (p1 p2 p3 p4 p5 p6 p7 : json) (b1 b2 b3 b4 b5 : string) :
  let req := nws_request (points_url lat lon) in
  forecast_ref (payload_of (net log req)) = Ok (JStr u) ->
  periods_of (payload_of (net (log ++ [req]) (nws_request u)))
  = Ok (JArr [p1; p2; p3; p4; p5; p6; p7]) ->
  format_period p1 = Ok b1 ->
  format_period p2 = Ok b2 ->
  format_period p3 = Ok b3 ->
  format_period p4 = Ok b4 ->
  format_period p5 = Ok b5 ->
  get_forecast lat lon log
  = (Ok (b1 ++ DELIMITER ++ b2 ++ DELIMITER ++ b3 ++ DELIMITER ++ b4
         ++ DELIMITER ++ b5),
     (log ++ [req; nws_request u])%list).
Proof.
  intros req Hu Hp H1 H2 H3 H4 H5.
  apply (get_forecast_authoritative lat lon log u
           [p1; p2; p3; p4; p5; p6; p7] [b1; b2; b3; b4; b5] Hu Hp).
  cbn [firstn]. repeat constructor; assumption.
Qed.

(** C4: when the authoritative points call gives nothing, [get_forecast]
    makes exactly two requests, the points request and then the fallback
    request (each provider asked once), and if the fallback gives nothing
    either the result is the fixed no-provider message, returned normally. *)
Theorem get_forecast_fallback_after_points_failure (lat lon : float)
  (log : list request) :
  let req := nws_request (points_url lat lon) in
  payload_of (net log req) = JNull ->
  snd (get_forecast lat lon log)
  = (log ++ [req; openmeteo_request lat lon])%list
  /\ (payload_of (net (log ++ [req]) (openmeteo_request lat lon)) = JNull ->
      get_forecast lat lon log
      = (Ok MSG_NO_PROVIDER, (log ++ [req; openmeteo_request lat lon])%list)).
Proof.
  intros req H.
  assert (Hf : py_truthy (payload_of (net log req)) = false)
    by (rewrite H; reflexivity).
  rewrite (get_forecast_points_unavailable lat lon log Hf). fold req.
  split; [reflexivity|]. intros Ho. rewrite Ho. reflexivity.
Qed.

(** *** Alerts *)

Lemma py_get_dict (fields : list (string * json)) (k : string)
  (default : json) :
  py_get (JObj fields) k default = Ok (get_or k fields default).
Proof. unfold py_get, get_or. destruct (lookup k fields); reflexivity. Qed.

Lemma contains_lookup (k : string) (fields : list (string * json)) :
  existsb (fun kv => String.eqb k (fst kv)) fields
  = match lookup k fields with Some _ => true | None => false end.
Proof.
  induction fields as [|[k' v] rest IH]; cbn [existsb lookup fst].
  - reflexivity.
  - destruct (String.eqb k k'); [reflexivity | exact IH].
Qed.

(** A feature whose [properties] is a dictionary always formats. *)
Lemma format_alert_ok (fields props : list (string * json)) :
  lookup "properties" fields = Some (JObj props) ->
  format_alert (JObj fields) = Ok (alert_text py_repr props).
Proof.
  intros H. unfold alert_text. open_format_alert.
  rewrite H. cbn iota beta.
  unfold get_or.
  destruct (lookup "event" props), (lookup "areaDesc" props),
    (lookup "severity" props), (lookup "description" props),
    (lookup "instruction" props); reflexivity.
Qed.

(** For a payload that is [None] or an object, [get_alerts] makes one
    request and answers with the fixed unable-to-fetch message when the
    payload is [None] or has no [features] field, with the distinct fixed
    no-active-alerts message when [features] is the empty list, and with
    the alerts joined by the delimiter when [features] is a non-empty list
    of alerts each of which formats. *)
Theorem get_alerts_report (state : string) (log : list request)
  (out : string) :
  let req := nws_request (alerts_url state) in
  alerts_report py_repr (payload_of (net log req)) out ->
  get_alerts state log = (Ok out, (log ++ [req])%list)
  /\ MSG_NO_ALERTS <> MSG_ALERTS_UNAVAILABLE.
Proof.
  intros req H. split; [|discriminate].
  open_get_alerts. rewrite make_nws_request_str. fold req.
  inversion H as [E|fields Hf E|fields Hf E|fields f fs blocks Hf Hb E];
    clear H.
  - reflexivity.
  - destruct fields as [|kv rest]; [reflexivity|].
    cbn [py_truthy negb py_contains and_then].
    rewrite contains_lookup, Hf. reflexivity.
  - rewrite (lookup_truthy _ _ _ Hf).
    cbn [negb py_contains and_then py_getitem].
    rewrite contains_lookup, Hf. reflexivity.
  - rewrite (lookup_truthy _ _ _ Hf).
    cbn [negb py_contains and_then py_getitem].
    rewrite contains_lookup, Hf. cbn [negb py_truthy py_iter and_then].
    rewrite (traverse_ok _ _ _ Hb). reflexivity.
Qed.

(** *** The fallback report *)

Lemma daily_loop_ok (daily : json) (indices : list nat)
  (lines : list string) :
  Forall2 (fun i line => daily_line py_repr daily i = Ok line) indices lines ->
  forall forecast,
    daily_loop py_repr daily indices forecast
    = Ok (fold_left append lines forecast).
Proof.
  induction 1 as [|i line indices lines Hi _ IH]; intros forecast;
    cbn [daily_loop and_then fold_left].
  - reflexivity.
  - rewrite Hi. apply IH.
Qed.

(** Up to the loop, the report is the current-weather block, whatever
    scalars that block holds. *)
Lemma format_openmeteo_forecast_head (fields cur : list (string * json))
  (daily : json) :
  py_get (JObj fields) "current_weather" (JObj []) = Ok (JObj cur) ->
  py_get (JObj fields) "daily" (JObj []) = Ok daily ->
  format_openmeteo_forecast (JObj fields)
  = (n <~ (t <~ py_get daily "time" (JArr []) ;; py_len t) ;;
     daily_loop py_repr daily (seq 0 (Nat.min 3 n))
       (current_block py_repr cur)).
Proof.
  intros Hc Hd. open_format_openmeteo_forecast.
  rewrite Hc, Hd. cbn [and_then].
  repeat rewrite py_get_dict. reflexivity.
Qed.

(** [format_openmeteo_forecast] does not raise on a missing scalar of the
    current-weather block (nor on a missing block): each of temperature,
    wind speed, wind direction and weather code that is absent shows as
    N/A, and the daily lines follow. *)
Theorem format_openmeteo_forecast_current_placeholders
  (fields cur : list (string * json)) (daily : json) (n : nat)
  (lines : list string) :
  py_get (JObj fields) "current_weather" (JObj []) = Ok (JObj cur) ->
  py_get (JObj fields) "daily" (JObj []) = Ok daily ->
  (t <~ py_get daily "time" (JArr []) ;; py_len t) = Ok n ->
  Forall2 (fun i line => daily_line py_repr daily i = Ok line)
    (seq 0 (Nat.min 3 n)) lines ->
  format_openmeteo_forecast (JObj fields)
  = Ok (fold_left append lines (current_block py_repr cur)).
Proof.
  intros Hc Hd Hn Hl.
  rewrite (format_openmeteo_forecast_head fields cur daily Hc Hd).
  rewrite Hn. cbn [and_then]. apply daily_loop_ok. exact Hl.
Qed.

(** C7: a fallback payload with five daily entries formats to the
    current-weather block followed by exactly three daily lines, those of
    the first three entries in the order given. *)
Theorem format_openmeteo_forecast_five_days
  (fields cur daily : list (string * json))
  (t1 t2 t3 t4 t5 a1 a2 a3 a4 a5 b1 b2 b3 b4 b5 c1 c2 c3 c4 c5 : json) :
  py_get (JObj fields) "current_weather" (JObj []) = Ok (JObj cur) ->
  lookup "daily" fields = Some (JObj daily) ->
  lookup "time" daily = Some (JArr [t1; t2; t3; t4; t5]) ->
  lookup "temperature_2m_max" daily = Some (JArr [a1; a2; a3; a4; a5]) ->
  lookup "temperature_2m_min" daily = Some (JArr [b1; b2; b3; b4; b5]) ->
  lookup "weathercode" daily = Some (JArr [c1; c2; c3; c4; c5]) ->
  format_openmeteo_forecast (JObj fields)
  = Ok (((current_block py_repr cur
          ++ daily_text py_repr t1 a1 b1 c1)
         ++ daily_text py_repr t2 a2 b2 c2)
        ++ daily_text py_repr t3 a3 b3 c3).
Proof.
  intros Hc Hd Ht Ha Hb Hcode.
  assert (Hd' : py_get (JObj fields) "daily" (JObj []) = Ok (JObj daily))
    by (unfold py_get; rewrite Hd; reflexivity).
  rewrite (format_openmeteo_forecast_head fields cur (JObj daily) Hc Hd').
  unfold py_get. rewrite Ht.
  cbn [and_then py_len List.length Nat.min seq daily_loop].
  unfold daily_line, py_getitem. rewrite Ht, Ha, Hb, Hcode.
  reflexivity.
Qed.

(** *** The chain as a whole *)

Lemma fallback_result_unavailable (openmeteo_data : json) :
  py_truthy openmeteo_data = false ->
  fallback_result py_repr openmeteo_data = Ok MSG_NO_PROVIDER.
Proof. intros H. unfold fallback_result. rewrite H. reflexivity. Qed.

(** A result handed back without the fallback being asked comes from two
    successful authoritative lookups. *)
Lemma get_forecast_ok_without_fallback (lat lon : float)
  (log : list request) (out : string) (log' : list request) :
  let req := nws_request (points_url lat lon) in
  get_forecast lat lon log = (Ok out, log') ->
  ~ In (openmeteo_request lat lon) log' ->
  exists u periods,
    forecast_ref (payload_of (net log req)) = Ok (JStr u)
    /\ periods_of (payload_of (net (log ++ [req]) (nws_request u)))
       = Ok periods.
Proof.
  intros req. open_get_forecast.
  rewrite make_nws_request_str. fold req.
  assert (Hfb : forall l r,
             (r, (l ++ [openmeteo_request lat lon])%list) = (Ok out, log') ->
             ~ In (openmeteo_request lat lon) log' -> False).
  { intros l r E Hn. injection E as _ <-. apply Hn.
    apply in_or_app. right. left. reflexivity. }
  destruct (py_truthy (payload_of (net log req))).
  2:{ rewrite make_openmeteo_request_run. intros E Hn. exfalso.
      destruct (py_truthy _); exact (Hfb _ _ E Hn). }
  unfold forecast_ref.
  destruct (and_then (py_getitem (payload_of (net log req)) "properties") _)
    as [url|e]; [|discriminate].
  assert (Hstr : (exists u, url = JStr u) \/ (forall u, url <> JStr u)).
  { destruct url; try (right; intros; discriminate). left. eexists.
    reflexivity. }
  destruct Hstr as [[u ->] | Hn'].
  - rewrite make_nws_request_str.
    destruct (py_truthy (payload_of (net (log ++ [req]) (nws_request u)))).
    + destruct (periods_of
                  (payload_of (net (log ++ [req]) (nws_request u))))
        as [periods|e] eqn:Ep; unfold periods_of in Ep; rewrite Ep;
        [|discriminate].
      intros _ _. exists u, periods. split; [reflexivity | exact Ep].
    + rewrite make_openmeteo_request_run. intros E Hn. exfalso.
      destruct (py_truthy _); exact (Hfb _ _ E Hn).
  - rewrite (make_nws_request_not_str url _ Hn'). cbn [py_truthy].
    rewrite make_openmeteo_request_run. intros E Hn. exfalso.
    destruct (py_truthy _); exact (Hfb _ _ E Hn).
Qed.

(** C2, as amended: [get_forecast] returns the authoritative result (a
    string, the fallback not asked) only when both the points lookup and
    the forecast lookup succeed; the period list may be empty, and the
    result is then the empty string.  When the points lookup, or after it
    the forecast lookup, returns nothing, it asks the fallback provider,
    and when that returns nothing either it returns the fixed no-provider
    message. *)
Theorem get_forecast_chain (lat lon : float) (log : list request) :
  let req := nws_request (points_url lat lon) in
  let fallback := openmeteo_request lat lon in
  (forall out log',
      get_forecast lat lon log = (Ok out, log') ->
      ~ In fallback log' ->
      exists u periods,
        forecast_ref (payload_of (net log req)) = Ok (JStr u)
        /\ periods_of (payload_of (net (log ++ [req]) (nws_request u)))
           = Ok periods)
  /\ (forall u,
      forecast_ref (payload_of (net log req)) = Ok (JStr u) ->
      periods_of (payload_of (net (log ++ [req]) (nws_request u)))
      = Ok (JArr []) ->
      get_forecast lat lon log
      = (Ok "", (log ++ [req; nws_request u])%list))
  /\ (py_truthy (payload_of (net log req)) = false ->
      get_forecast lat lon log
      = (fallback_result py_repr (payload_of (net (log ++ [req]) fallback)),
         (log ++ [req; fallback])%list))
  /\ (forall u,
      forecast_ref (payload_of (net log req)) = Ok (JStr u) ->
      py_truthy (payload_of (net (log ++ [req]) (nws_request u))) = false ->
      get_forecast lat lon log
      = (fallback_result py_repr
           (payload_of (net (log ++ [req; nws_request u]) fallback)),
         (log ++ [req; nws_request u; fallback])%list))
  /\ (forall openmeteo_data,
      py_truthy openmeteo_data = false ->
      fallback_result py_repr openmeteo_data = Ok MSG_NO_PROVIDER).
Proof.
  intros req fallback. repeat split.
  - intros out log'. apply get_forecast_ok_without_fallback.
  - intros u Hu Hp.
    apply (get_forecast_authoritative lat lon log u [] [] Hu Hp).
    constructor.
  - apply get_forecast_points_unavailable.
  - intros u. apply get_forecast_forecast_unavailable.
  - apply fallback_result_unavailable.
Qed.

End Properties.

Lemma geocode_city_not_found_witness :
  geocode_city ex_conv None (always (ok_response (JArr []))) "Atlantis" []
  = (Ok (JStr MSG_GEOCODE_FAILED), [geocode_request None "Atlantis"]).
Proof.
  apply (geocode_city_not_found ex_conv None
           (always (ok_response (JArr []))) "Atlantis" []).
  apply (nf_zero_matches ex_conv (mkResponse 200 (Some (JArr []))) (JArr []));
    reflexivity.
Defined.

Lemma format_alert_all_absent_witness :
  format_alert ex_repr (JObj [("id", JStr "a1"); ("properties", JObj [])])
  = Ok ALERT_PLACEHOLDERS.
Proof.
  apply (format_alert_all_absent ex_repr
           [("id", JStr "a1"); ("properties", JObj [])] []); reflexivity.
Defined.

(** ** The program at concrete inputs *)

(** C1: a 2xx answer of the authoritative provider that decodes to a
    non-empty object without the expected key is not taken for
    unavailable: the subscript raises and [KeyError] leaves
    [get_forecast], for a missing [properties], a missing [forecast] and a
    missing [periods] alike, and the fallback provider is never asked. *)
Theorem get_forecast_missing_key_raises :
  get_forecast ex_repr
    (scripted [ok_response (JObj [("title", JStr "Unexpected Problem")])])
    ex_lat ex_lon []
  = (Raise KeyError,
     [nws_request "https://api.weather.gov/points/40.5,-74.25"])
  /\ get_forecast ex_repr
       (scripted [ok_response (JObj [("properties", JObj [("cwa", JStr "OKX")])])])
       ex_lat ex_lon []
     = (Raise KeyError,
        [nws_request "https://api.weather.gov/points/40.5,-74.25"])
  /\ get_forecast ex_repr
       (scripted [ok_response ex_points;
                  ok_response (JObj [("properties",
                                      JObj [("units", JStr "us")])])])
       ex_lat ex_lon []
     = (Raise KeyError,
        [nws_request "https://api.weather.gov/points/40.5,-74.25";
         nws_request ex_forecast_url]).
Proof. repeat split; reflexivity. Qed.

(** C2 as worded fails: with both lookups succeeding on an empty period
    list, the authoritative result (the empty string) is returned and the
    fallback is not consulted. *)
Lemma authoritative_only_if_nonempty_fails :
  ~ authoritative_only_if_nonempty ex_repr
      (scripted [ok_response ex_points; ok_response (ex_forecast [])])
      ex_lat ex_lon.
Proof.
  intros H.
  destruct (H ""
              [nws_request "https://api.weather.gov/points/40.5,-74.25";
               nws_request ex_forecast_url])
    as [p [ps Hp]].
  - reflexivity.
  - intros [E | [E | []]]; discriminate E.
  - vm_compute in Hp. discriminate Hp.
Qed.

(** C3: a missing field of a period or of a daily entry is not rendered
    as a placeholder: for a period without its name and for a daily block
    without its weather codes the formatters raise [KeyError], which
    leaves [get_forecast]. *)
Theorem formatters_raise_on_missing_field :
  format_period ex_repr ex_period_without_name = Raise KeyError
  /\ format_openmeteo_forecast ex_repr ex_daily_without_codes = Raise KeyError
  /\ get_forecast ex_repr
       (scripted [ok_response ex_points;
                  ok_response (ex_forecast [ex_period_without_name])])
       ex_lat ex_lon []
     = (Raise KeyError,
        [nws_request "https://api.weather.gov/points/40.5,-74.25";
         nws_request ex_forecast_url]).
Proof. repeat split; reflexivity. Qed.

(** C5: outside the answers [get_alerts] guards against, it returns
    neither of the two messages nor the joined alerts: a 2xx body that is
    a number has no [features] field and makes the membership test raise
    [TypeError], and a feature list holding an alert without [properties]
    makes the formatter raise [KeyError]. *)
Theorem get_alerts_unguarded_payload_raises :
  get_alerts ex_repr (always (ok_response (JInt 7))) "NY" []
  = (Raise TypeError,
     [nws_request "https://api.weather.gov/alerts/active/area/NY"])
  /\ get_alerts ex_repr
       (always (ok_response
                  (JObj [("features",
                          JArr [ex_feature "Flood Watch";
                                JObj [("id", JStr "a2")]])])))
       "NY" []
     = (Raise KeyError,
        [nws_request "https://api.weather.gov/alerts/active/area/NY"]).
Proof. split; reflexivity. Qed.

Lemma get_forecast_chain_witness :
  (exists u periods,
      forecast_ref
        (payload_of
           (scripted [ok_response ex_points; ok_response (ex_forecast [])] []
              (nws_request (points_url ex_repr ex_lat ex_lon))))
      = Ok (JStr u)
      /\ periods_of
           (payload_of
              (scripted [ok_response ex_points; ok_response (ex_forecast [])]
                 [nws_request (points_url ex_repr ex_lat ex_lon)]
                 (nws_request u)))
         = Ok periods)
  /\ get_forecast ex_repr (always Failed) ex_lat ex_lon []
     = (Ok MSG_NO_PROVIDER,
        [nws_request "https://api.weather.gov/points/40.5,-74.25";
         openmeteo_request ex_repr ex_lat ex_lon]).
Proof.
  split.
  - apply (proj1 (get_forecast_chain ex_repr
                    (scripted [ok_response ex_points;
                               ok_response (ex_forecast [])])
                    ex_lat ex_lon [])
             ""
             [nws_request "https://api.weather.gov/points/40.5,-74.25";
              nws_request ex_forecast_url]).
    + reflexivity.
    + intros [E | [E | []]]; discriminate E.
  - apply (proj1 (proj2 (proj2 (get_forecast_chain ex_repr (always Failed)
                                  ex_lat ex_lon [])))).
    reflexivity.
Defined.

Lemma format_openmeteo_forecast_current_placeholders_witness :
  format_openmeteo_forecast ex_repr (JObj [("latitude", JInt 40)])
  = Ok (NL ++ "Current Weather:" ++ NL
        ++ "Temperature: N/A°C" ++ NL
        ++ "Wind: N/A km/h from N/A°" ++ NL
        ++ "Weather Code: N/A (see https://open-meteo.com/en/docs for codes)"
        ++ NL ++ NL ++ "Next 3 Days Forecast:" ++ NL).
Proof.
  apply (format_openmeteo_forecast_current_placeholders ex_repr
           [("latitude", JInt 40)] [] (JObj []) 0 []).
  - reflexivity.
  - reflexivity.
  - reflexivity.
  - constructor.
Defined.

Lemma get_forecast_fallback_after_points_failure_witness :
  snd (get_forecast ex_repr (always Failed) ex_lat ex_lon [])
  = [nws_request "https://api.weather.gov/points/40.5,-74.25";
     openmeteo_request ex_repr ex_lat ex_lon]
  /\ get_forecast ex_repr (always Failed) ex_lat ex_lon []
     = (Ok MSG_NO_PROVIDER,
        [nws_request "https://api.weather.gov/points/40.5,-74.25";
         openmeteo_request ex_repr ex_lat ex_lon]).
Proof.
  destruct (get_forecast_fallback_after_points_failure ex_repr
              (always Failed) ex_lat ex_lon [] eq_refl) as [Hlog Hmsg].
  split; [exact Hlog | exact (Hmsg eq_refl)].
Defined.

Lemma get_alerts_report_witness :
  get_alerts ex_repr
    (always (ok_response (JObj [("features", JArr [ex_feature "Flood Watch";
                                                   ex_feature "Wind Advisory"])])))
    "NY" []
  = (Ok (alert_text ex_repr [("event", JStr "Flood Watch")] ++ DELIMITER
         ++ alert_text ex_repr [("event", JStr "Wind Advisory")]),
     [nws_request "https://api.weather.gov/alerts/active/area/NY"]).
Proof.
  apply (get_alerts_report ex_repr
           (always (ok_response
                      (JObj [("features", JArr [ex_feature "Flood Watch";
                                                ex_feature "Wind Advisory"])])))
           "NY" []).
  apply (report_alerts ex_repr
           [("features", JArr [ex_feature "Flood Watch";
                               ex_feature "Wind Advisory"])]
           (ex_feature "Flood Watch") [ex_feature "Wind Advisory"]
           [alert_text ex_repr [("event", JStr "Flood Watch")];
            alert_text ex_repr [("event", JStr "Wind Advisory")]]).
  - reflexivity.
  - repeat constructor.
Defined.

Lemma get_forecast_seven_periods_witness :
  get_forecast ex_repr
    (scripted [ok_response ex_points;
               ok_response
                 (ex_forecast [ex_period "Today" 71; ex_period "Tonight" 55;
                               ex_period "Tuesday" 73;
                               ex_period "Tuesday Night" 56;
                               ex_period "Wednesday" 70;
                               ex_period "Wednesday Night" 54;
                               ex_period "Thursday" 68])])
    ex_lat ex_lon []
  = (Ok (period_text ex_repr (JStr "Today") (JInt 71) (JStr "F")
           (JStr "5 mph") (JStr "NW") (JStr "Clear.")
         ++ DELIMITER
         ++ period_text ex_repr (JStr "Tonight") (JInt 55) (JStr "F")
              (JStr "5 mph") (JStr "NW") (JStr "Clear.")
         ++ DELIMITER
         ++ period_text ex_repr (JStr "Tuesday") (JInt 73) (JStr "F")
              (JStr "5 mph") (JStr "NW") (JStr "Clear.")
         ++ DELIMITER
         ++ period_text ex_repr (JStr "Tuesday Night") (JInt 56) (JStr "F")
              (JStr "5 mph") (JStr "NW") (JStr "Clear.")
         ++ DELIMITER
         ++ period_text ex_repr (JStr "Wednesday") (JInt 70) (JStr "F")
              (JStr "5 mph") (JStr "NW") (JStr "Clear.")),
     [nws_request "https://api.weather.gov/points/40.5,-74.25";
      nws_request ex_forecast_url]).
Proof.
  apply (get_forecast_seven_periods ex_repr
           (scripted [ok_response ex_points;
                      ok_response
                        (ex_forecast [ex_period "Today" 71;
                                      ex_period "Tonight" 55;
                                      ex_period "Tuesday" 73;
                                      ex_period "Tuesday Night" 56;
                                      ex_period "Wednesday" 70;
                                      ex_period "Wednesday Night" 54;
                                      ex_period "Thursday" 68])])
           ex_lat ex_lon [] ex_forecast_url
           (ex_period "Today" 71) (ex_period "Tonight" 55)
           (ex_period "Tuesday" 73) (ex_period "Tuesday Night" 56)
           (ex_period "Wednesday" 70) (ex_period "Wednesday Night" 54)
           (ex_period "Thursday" 68)); reflexivity.
Defined.

Lemma format_openmeteo_forecast_five_days_witness :
  format_openmeteo_forecast ex_repr ex_fallback
  = Ok (((current_block ex_repr []
          ++ "2024-05-01: High 21°C, Low 11°C, Code 0" ++ NL)
         ++ "2024-05-02: High 22°C, Low 12°C, Code 1" ++ NL)
        ++ "2024-05-03: High 23°C, Low 13°C, Code 2" ++ NL).
Proof.
  exact (format_openmeteo_forecast_five_days ex_repr
           [("daily",
             JObj [("time", JArr ex_days);
                   ("temperature_2m_max",
                    JArr [JInt 21; JInt 22; JInt 23; JInt 24; JInt 25]);
                   ("temperature_2m_min",
                    JArr [JInt 11; JInt 12; JInt 13; JInt 14; JInt 15]);
                   ("weathercode",
                    JArr [JInt 0; JInt 1; JInt 2; JInt 3; JInt 61])])]
           []
           [("time", JArr ex_days);
            ("temperature_2m_max",
             JArr [JInt 21; JInt 22; JInt 23; JInt 24; JInt 25]);
            ("temperature_2m_min",
             JArr [JInt 11; JInt 12; JInt 13; JInt 14; JInt 15]);
            ("weathercode",
             JArr [JInt 0; JInt 1; JInt 2; JInt 3; JInt 61])]
           (JStr "2024-05-01") (JStr "2024-05-02") (JStr "2024-05-03")
           (JStr "2024-05-04") (JStr "2024-05-05")
           (JInt 21) (JInt 22) (JInt 23) (JInt 24) (JInt 25)
           (JInt 11) (JInt 12) (JInt 13) (JInt 14) (JInt 15)
           (JInt 0) (JInt 1) (JInt 2) (JInt 3) (JInt 61)
           eq_refl eq_refl eq_refl eq_refl eq_refl eq_refl).
Defined.

Lemma get_forecast_empty_periods_witness :
  get_forecast ex_repr
    (scripted [ok_response ex_points; ok_response (ex_forecast [])])
    ex_lat ex_lon []
  = (Ok "", [nws_request "https://api.weather.gov/points/40.5,-74.25";
             nws_request ex_forecast_url])
  /\ ~ In (openmeteo_request ex_repr ex_lat ex_lon)
         [nws_request "https://api.weather.gov/points/40.5,-74.25";
          nws_request ex_forecast_url]
  /\ "" <> MSG_NO_PROVIDER.
Proof.
  apply (get_forecast_empty_periods ex_repr
           (scripted [ok_response ex_points; ok_response (ex_forecast [])])
           ex_lat ex_lon [] ex_forecast_url); reflexivity.
Defined.

(** A match is handed back as a structured result. *)
Example geocode_city_found :
  geocode_city ex_conv None
    (always (ok_response
               (JArr [JObj [("lat", JStr "40.5"); ("lon", JStr "-74.25");
                            ("display_name", JStr "Staten Island")]])))
    "Staten Island" []
  = (Ok (JObj [("latitude", JFloat ex_lat); ("longitude", JFloat ex_lon);
               ("display_name", JStr "Staten Island")]),
     [geocode_request None "Staten Island"]).
Proof. reflexivity. Qed.

(** A fallback payload is formatted when the authoritative provider is
    down. *)
Example get_forecast_falls_back :
  get_forecast ex_repr
    (scripted [Failed; ok_response (JObj [("latitude", JInt 40)])])
    ex_lat ex_lon []
  = (Ok (current_block ex_repr []),
     [nws_request "https://api.weather.gov/points/40.5,-74.25";
      openmeteo_request ex_repr ex_lat ex_lon]).
Proof. reflexivity. Qed.

(** ** Further properties of the helpers and tools *)

Section Coverage.

Variable py_repr : json -> string.
Variable float_conv : json -> option float.
Variable CONTACT_EMAIL : option string.
Variable net : list request -> request -> transport.

Local Notation make_nws_request := (make_nws_request net).
Local Notation make_openmeteo_request := (make_openmeteo_request py_repr net).
Local Notation make_geocode_request :=
  (make_geocode_request float_conv CONTACT_EMAIL net).
Local Notation geocode_city := (geocode_city float_conv CONTACT_EMAIL net).
Local Notation geocode_request := (geocode_request CONTACT_EMAIL).
Local Notation get_alerts := (get_alerts py_repr net).
Local Notation get_forecast := (get_forecast py_repr net).
Local Notation format_alert := (format_alert py_repr).
Local Notation format_period := (format_period py_repr).
Local Notation format_openmeteo_forecast := (format_openmeteo_forecast py_repr).
Local Notation points_url := (points_url py_repr).
Local Notation openmeteo_request := (openmeteo_request py_repr).
Local Notation py_float := (py_float float_conv).

(** *** Request helpers *)

Lemma raise_for_status_ok (r : response) (u : unit) :
  raise_for_status r = Ok u -> (200 <= status_code r <= 299)%Z.
Proof.
  unfold raise_for_status.
  destruct ((200 <=? status_code r)%Z && (status_code r <=? 299)%Z) eqn:E;
    [|discriminate].
  intros _. apply andb_true_iff in E. destruct E as [E1 E2].
  apply Z.leb_le in E1. apply Z.leb_le in E2. lia.
Qed.

Lemma raise_for_status_error (r : response) (e : exn) :
  raise_for_status r = Raise e -> e = HTTPError.
Proof.
  unfold raise_for_status.
  destruct ((200 <=? status_code r)%Z && (status_code r <=? 299)%Z);
    [discriminate|]. intros H. injection H as <-. reflexivity.
Qed.

(** Data come only out of a 2xx answer whose body decodes. *)
Lemma payload_of_data (t : transport) (v : json) :
  payload_of t = v -> v <> JNull ->
  exists r, t = Got r /\ (200 <= status_code r <= 299)%Z
            /\ json_body r = Some v.
Proof.
  unfold payload_of. destruct t as [|r]; [congruence|].
  destruct (raise_for_status r) as [u|e] eqn:Es; [|congruence].
  destruct (json_body r) as [b|] eqn:Eb; [|congruence].
  intros <- _. exists r. split; [reflexivity|]. split; [|exact Eb].
  eapply raise_for_status_ok. exact Es.
Qed.

(** [make_nws_request] never raises.  For a URL that is not a string it
    makes no request and returns [None]; for a string it makes exactly one
    request, and whatever it returns other than [None] is the decoded
    body of a 2xx response. *)
Theorem make_nws_request_outcome (url : json) (log : list request) :
  exists v log',
    make_nws_request url log = (Ok v, log')
    /\ (((forall u, url <> JStr u) /\ v = JNull /\ log' = log)
        \/ (exists u,
              url = JStr u /\ log' = (log ++ [nws_request u])%list
              /\ (v <> JNull ->
                  exists r, net log (nws_request u) = Got r
                            /\ (200 <= status_code r <= 299)%Z
                            /\ json_body r = Some v))).
Proof.
  destruct url as [| | | |u| |];
    try (exists JNull, log; split; [reflexivity|];
         left; repeat split; congruence).
  exists (payload_of (net log (nws_request u))), (log ++ [nws_request u])%list.
  split.
  - open_make_nws_request. unfold payload_of.
    destruct (net log _) as [|r]; [reflexivity|].
    destruct (raise_for_status r); [|reflexivity].
    destruct (json_body r); reflexivity.
  - right. exists u. repeat split. apply payload_of_data. reflexivity.
Qed.

(** [make_openmeteo_request] never raises and makes exactly one request,
    with no headers, to the forecast URL of the coordinates; whatever it
    returns other than [None] is the decoded body of a 2xx response. *)
Theorem make_openmeteo_request_outcome (lat lon : float)
  (log : list request) :
  exists v,
    make_openmeteo_request lat lon log
    = (Ok v, (log ++ [mkRequest (openmeteo_url py_repr lat lon) [] [] 30])%list)
    /\ (v <> JNull ->
        exists r, net log (openmeteo_request lat lon) = Got r
                  /\ (200 <= status_code r <= 299)%Z
                  /\ json_body r = Some v).
Proof.
  exists (payload_of (net log (openmeteo_request lat lon))). split.
  - open_make_openmeteo_request. unfold payload_of.
    destruct (net log _) as [|r]; [reflexivity|].
    destruct (raise_for_status r); [|reflexivity].
    destruct (json_body r); reflexivity.
  - apply payload_of_data. reflexivity.
Qed.

(** *** Geocoding *)

Lemma getitem_then_ok (item : json) (k : string) (f : json -> result float)
  (x : float) :
  (v <~ py_getitem item k ;; f v) = Ok x -> exists fields, item = JObj fields.
Proof.
  destruct item; try discriminate. intros _. eexists. reflexivity.
Qed.

(** A readable first match is handed back as a record. *)
Lemma make_geocode_request_found (q : string) (log : list request)
  (r : response) (u : unit) (data : json) (fields : list (string * json))
  (lat lon : float) :
  net log (geocode_request q) = Got r ->
  raise_for_status r = Ok u ->
  json_body r = Some data ->
  py_truthy data = true ->
  py_index data 0 = Ok (JObj fields) ->
  (v <~ py_getitem (JObj fields) "lat" ;; py_float v) = Ok lat ->
  (v <~ py_getitem (JObj fields) "lon" ;; py_float v) = Ok lon ->
  make_geocode_request q log
  = (Ok (geocode_record lat lon (get_or "display_name" fields JNull)),
     (log ++ [geocode_request q])%list).
Proof.
  intros Hn Hs Hb Ht Hi Hlat Hlon. open_make_geocode_request.
  rewrite Hn, Hs, Hb, Ht. cbn [negb]. rewrite Hi, Hlat, Hlon.
  rewrite py_get_dict. reflexivity.
Qed.

(** Every answer of the geocoding provider either gives no usable match
    or gives a first match that reads as a record. *)
Lemma geocode_answer_cases (q : string) (log : list request) :
  geocode_not_found float_conv (net log (geocode_request q))
  \/ exists lat lon display_name,
       make_geocode_request q log
       = (Ok (geocode_record lat lon display_name),
          (log ++ [geocode_request q])%list).
Proof.
  destruct (net log (geocode_request q)) as [|r] eqn:Hn;
    [left; constructor|].
  destruct (raise_for_status r) as [u|e] eqn:Hs.
  2:{ left. apply nf_error_status.
      rewrite (raise_for_status_error _ _ Hs) in Hs. exact Hs. }
  destruct (json_body r) as [data|] eqn:Hb;
    [|left; apply nf_undecodable; exact Hb].
  destruct (py_truthy data) eqn:Ht;
    [|left; eapply nf_zero_matches; eassumption].
  destruct (py_index data 0) as [item|e] eqn:Hi;
    [|left; eapply nf_no_first_match; eassumption].
  destruct (and_then (py_getitem item "lat") (fun v => py_float v))
    as [lat|e] eqn:Hlat;
    [|left; eapply nf_bad_latitude; eassumption].
  destruct (and_then (py_getitem item "lon") (fun v => py_float v))
    as [lon|e] eqn:Hlon;
    [|left; eapply nf_bad_longitude; eassumption].
  right. destruct (getitem_then_ok _ _ _ _ Hlat) as [fields ->].
  exists lat, lon, (get_or "display_name" fields JNull).
  eapply make_geocode_request_found; eassumption.
Qed.

(** [geocode_city] never raises and makes exactly one request; its result
    is either the fixed not-found string or a record with exactly the keys
    latitude and longitude, both floats, and display_name. *)
Theorem geocode_city_result_shape (q : string) (log : list request) :
  exists v,
    geocode_city q log = (Ok v, (log ++ [geocode_request q])%list)
    /\ (v = JStr MSG_GEOCODE_FAILED
        \/ exists lat lon display_name,
             v = JObj [("latitude", JFloat lat); ("longitude", JFloat lon);
                       ("display_name", display_name)]).
Proof.
  open_geocode_city.
  destruct (geocode_answer_cases q log) as [H | [lat [lon [dn H]]]].
  - rewrite (make_geocode_request_not_found _ _ _ _ _ H).
    eexists. split; [reflexivity|]. left. reflexivity.
  - rewrite H. eexists. split; [reflexivity|].
    right. exists lat, lon, dn. reflexivity.
Qed.

(** First match wins: when the 2xx body is a list whose first entry is an
    object with convertible [lat] and [lon], [geocode_city] returns its
    coordinates and its display name ([None] when it has none), whatever
    the further entries of the list are. *)
Theorem geocode_city_first_match (q : string) (log : list request)
  (r : response) (fields : list (string * json)) (rest : list json)
  (lat_v lon_v : json) (lat lon : float) :
  net log (geocode_request q) = Got r ->
  (200 <= status_code r <= 299)%Z ->
  json_body r = Some (JArr (JObj fields :: rest)) ->
  lookup "lat" fields = Some lat_v -> py_float lat_v = Ok lat ->
  lookup "lon" fields = Some lon_v -> py_float lon_v = Ok lon ->
  geocode_city q log
  = (Ok (JObj [("latitude", JFloat lat); ("longitude", JFloat lon);
               ("display_name", get_or "display_name" fields JNull)]),
     (log ++ [geocode_request q])%list).
Proof.
  intros Hn Hs Hb Hla Hlat Hlo Hlon. open_geocode_city.
  assert (Hs' : raise_for_status r = Ok tt).
  { unfold raise_for_status.
    destruct Hs as [H1 H2]. apply Z.leb_le in H1. apply Z.leb_le in H2.
    rewrite H1, H2. reflexivity. }
  rewrite (make_geocode_request_found q log r tt _ fields lat lon Hn Hs' Hb).
  - reflexivity.
  - reflexivity.
  - reflexivity.
  - cbn [py_getitem and_then]. rewrite Hla. exact Hlat.
  - cbn [py_getitem and_then]. rewrite Hlo. exact Hlon.
Qed.

(** [geocode_city] answers with the not-found string exactly when the
    provider gives no usable match. *)
Theorem geocode_city_not_found_iff (q : string) (log : list request) :
  fst (geocode_city q log) = Ok (JStr MSG_GEOCODE_FAILED)
  <-> geocode_not_found float_conv (net log (geocode_request q)).
Proof.
  split.
  - intros H. destruct (geocode_answer_cases q log) as [Hnf | [la [lo [dn E]]]];
      [exact Hnf|].
    revert H. open_geocode_city. rewrite E. cbn. discriminate.
  - intros H. open_geocode_city.
    rewrite (make_geocode_request_not_found _ _ _ _ _ H). reflexivity.
Qed.

(** *** Alerts *)

(** Whatever the provider answers, [get_alerts] makes exactly one request,
    to the alerts resource of the state: there is no second source. *)
Theorem get_alerts_single_request (state : string) (log : list request) :
  snd (get_alerts state log)
  = (log ++ [nws_request (NWS_API_BASE ++ "/alerts/active/area/" ++ state)])%list.
Proof.
  open_get_alerts. rewrite make_nws_request_str.
  fold (alerts_url state).
  destruct (negb (py_truthy (payload_of (net log (nws_request (alerts_url state))))));
    [reflexivity|].
  destruct (and_then (py_contains "features" _) _) as [[|]|]; try reflexivity.
  destruct (py_getitem _ "features") as [features|]; [|reflexivity].
  destruct (negb (py_truthy features)); [reflexivity|].
  destruct (and_then (Ok features) _); reflexivity.
Qed.

(** Any falsy payload, not only [None] (an empty object or list, zero,
    the empty string, false), is reported as unable to fetch. *)
Theorem get_alerts_falsy_payload (state : string) (log : list request) :
  let req := nws_request (alerts_url state) in
  py_truthy (payload_of (net log req)) = false ->
  get_alerts state log = (Ok MSG_ALERTS_UNAVAILABLE, (log ++ [req])%list).
Proof.
  intros req H. open_get_alerts. rewrite make_nws_request_str. fold req.
  rewrite H. reflexivity.
Qed.

(** A 2xx answer that is a non-zero number or [true] makes the membership
    test raise: [TypeError] leaves [get_alerts]. *)
Theorem get_alerts_scalar_payload_raises (state : string)
  (log : list request) :
  let req := nws_request (alerts_url state) in
  let data := payload_of (net log req) in
  py_truthy data = true ->
  (exists z, data = JInt z) \/ (exists f, data = JFloat f)
  \/ (exists b, data = JBool b) ->
  get_alerts state log = (Raise TypeError, (log ++ [req])%list).
Proof.
  intros req data Ht Hd. open_get_alerts. rewrite make_nws_request_str.
  fold req. fold data. rewrite Ht.
  destruct Hd as [[z ->] | [[f ->] | [b ->]]]; reflexivity.
Qed.

(** A [features] field that is present but falsy ([None], an empty object,
    zero, the empty string, false), not only the empty list, is reported as
    no active alerts. *)
Theorem get_alerts_falsy_features (state : string) (log : list request)
  (fields : list (string * json)) (features : json) :
  let req := nws_request (alerts_url state) in
  payload_of (net log req) = JObj fields ->
  lookup "features" fields = Some features ->
  py_truthy features = false ->
  get_alerts state log = (Ok MSG_NO_ALERTS, (log ++ [req])%list).
Proof.
  intros req Hp Hf Ht. open_get_alerts. rewrite make_nws_request_str.
  fold req. rewrite Hp. rewrite (lookup_truthy _ _ _ Hf).
  cbn [negb py_contains and_then py_getitem].
  rewrite contains_lookup, Hf. cbn [negb]. rewrite Ht. reflexivity.
Qed.

Lemma traverse_raises {A B : Type} (f : A -> result B) (pre : list A)
  (ys : list B) (bad : A) (post : list A) (e : exn) :
  Forall2 (fun x y => f x = Ok y) pre ys ->
  f bad = Raise e ->
  traverse f (pre ++ bad :: post) = Raise e.
Proof.
  induction 1 as [|x y pre ys Hx _ IH]; intros Hb;
    cbn [app traverse and_then].
  - rewrite Hb. reflexivity.
  - rewrite Hx, (IH Hb). reflexivity.
Qed.

(** One alert that does not format aborts the whole report: the exception
    of the first such alert leaves [get_alerts], whatever the alerts before
    and after it. *)
Theorem get_alerts_malformed_alert_raises (state : string)
  (log : list request) (fields : list (string * json))
  (pre post : list json) (blocks : list string) (bad : json) (e : exn) :
  let req := nws_request (alerts_url state) in
  payload_of (net log req) = JObj fields ->
  lookup "features" fields = Some (JArr (pre ++ bad :: post)) ->
  Forall2 (fun x b => format_alert x = Ok b) pre blocks ->
  format_alert bad = Raise e ->
  get_alerts state log = (Raise e, (log ++ [req])%list).
Proof.
  intros req Hp Hf Hpre Hbad. open_get_alerts. rewrite make_nws_request_str.
  fold req. rewrite Hp. rewrite (lookup_truthy _ _ _ Hf).
  cbn [negb py_contains and_then py_getitem].
  rewrite contains_lookup, Hf. cbn [negb py_iter and_then].
  assert (Ht : py_truthy (JArr (pre ++ bad :: post)) = true)
    by (destruct pre; reflexivity).
  rewrite Ht. cbn [negb].
  rewrite (traverse_raises _ _ _ _ _ _ Hpre Hbad). reflexivity.
Qed.

(** *** Formatters *)

(** [format_alert] succeeds exactly on an object whose [properties] is an
    object; which of the five fields are there plays no part, and the text
    is the five lines with the defaults for the absent ones. *)
Theorem format_alert_ok_iff (feature : json) (text : string) :
  format_alert feature = Ok text
  <-> exists fields props,
        feature = JObj fields
        /\ lookup "properties" fields = Some (JObj props)
        /\ text = alert_text py_repr props.
Proof.
  split.
  - intros H.
    destruct feature as [| | | | | |fields]; try discriminate H.
    destruct (lookup "properties" fields) as [p|] eqn:Hp.
    2:{ revert H. open_format_alert. rewrite Hp. discriminate. }
    destruct p as [| | | | | |props];
      try (revert H; open_format_alert; rewrite Hp; discriminate).
    exists fields, props. repeat split; [exact Hp|].
    rewrite (format_alert_ok py_repr fields props Hp) in H.
    injection H as <-. reflexivity.
  - intros [fields [props [-> [Hp ->]]]].
    apply format_alert_ok. exact Hp.
Qed.

(** The block of a period is written exactly when the period is an object
    holding all six fields; any one missing raises. *)
Theorem format_period_ok_iff (period : json) (text : string) :
  format_period period = Ok text
  <-> exists fields name temperature unit windSpeed windDirection detailed,
        period = JObj fields
        /\ lookup "name" fields = Some name
        /\ lookup "temperature" fields = Some temperature
        /\ lookup "temperatureUnit" fields = Some unit
        /\ lookup "windSpeed" fields = Some windSpeed
        /\ lookup "windDirection" fields = Some windDirection
        /\ lookup "detailedForecast" fields = Some detailed
        /\ text = period_text py_repr name temperature unit windSpeed
                    windDirection detailed.
Proof.
  split.
  - destruct period as [| | | | | |fields]; try discriminate.
    open_format_period.
    destruct (lookup "name" fields) as [v1|] eqn:E1; [|discriminate].
    destruct (lookup "temperature" fields) as [v2|] eqn:E2; [|discriminate].
    destruct (lookup "temperatureUnit" fields) as [v3|] eqn:E3;
      [|discriminate].
    destruct (lookup "windSpeed" fields) as [v4|] eqn:E4; [|discriminate].
    destruct (lookup "windDirection" fields) as [v5|] eqn:E5;
      [|discriminate].
    destruct (lookup "detailedForecast" fields) as [v6|] eqn:E6;
      [|discriminate].
    intros H. injection H as <-.
    exists fields, v1, v2, v3, v4, v5, v6. repeat split; assumption.
  - intros [fields [v1 [v2 [v3 [v4 [v5 [v6
             [-> [H1 [H2 [H3 [H4 [H5 [H6 ->]]]]]]]]]]]]]].
    apply format_period_ok; assumption.
Qed.

(** *** The forecast chain *)

(** With both lookups succeeding on a period list, the result is decided
    by the first five periods alone: their blocks joined when all five
    format, the exception of the first that does not otherwise.  Periods
    after the fifth are never read. *)
Theorem get_forecast_first_five_decide (lat lon : float)
  (log : list request) (u : string) (periods : list json) :
  let req := nws_request (points_url lat lon) in
  forecast_ref (payload_of (net log req)) = Ok (JStr u) ->
  periods_of (payload_of (net (log ++ [req]) (nws_request u)))
  = Ok (JArr periods) ->
  get_forecast lat lon log
  = (match traverse format_period (firstn 5 periods) with
     | Ok blocks => Ok (join DELIMITER blocks)
     | Raise e => Raise e
     end,
     (log ++ [req; nws_request u])%list).
Proof.
  intros req Hu Hp. open_get_forecast.
  rewrite make_nws_request_str. fold req.
  rewrite (forecast_ref_truthy _ _ Hu).
  unfold forecast_ref in Hu. rewrite Hu.
  rewrite make_nws_request_str.
  rewrite (periods_of_truthy _ _ Hp).
  unfold periods_of in Hp. rewrite Hp.
  cbn [py_slice_to py_iter and_then].
  rewrite <- app_assoc. cbn [app].
  destruct (traverse format_period (firstn 5 periods)); reflexivity.
Qed.

(** A truthy points payload from which the forecast reference cannot be
    read (not an object, no [properties], no [forecast]) makes
    [get_forecast] raise after the one request; no fallback is tried. *)
Theorem get_forecast_malformed_points_raises (lat lon : float)
  (log : list request) (e : exn) :
  let req := nws_request (points_url lat lon) in
  py_truthy (payload_of (net log req)) = true ->
  forecast_ref (payload_of (net log req)) = Raise e ->
  get_forecast lat lon log = (Raise e, (log ++ [req])%list).
Proof.
  intros req Ht He. open_get_forecast.
  rewrite make_nws_request_str. fold req. rewrite Ht.
  unfold forecast_ref in He. rewrite He. reflexivity.
Qed.

(** A truthy forecast payload from which the period list cannot be read
    makes [get_forecast] raise after the two authoritative requests; no
    fallback is tried. *)
Theorem get_forecast_malformed_forecast_raises (lat lon : float)
  (log : list request) (u : string) (e : exn) :
  let req := nws_request (points_url lat lon) in
  let forecast_data := payload_of (net (log ++ [req]) (nws_request u)) in
  forecast_ref (payload_of (net log req)) = Ok (JStr u) ->
  py_truthy forecast_data = true ->
  periods_of forecast_data = Raise e ->
  get_forecast lat lon log = (Raise e, (log ++ [req; nws_request u])%list).
Proof.
  intros req forecast_data Hu Ht He. open_get_forecast.
  rewrite make_nws_request_str. fold req.
  rewrite (forecast_ref_truthy _ _ Hu).
  unfold forecast_ref in Hu. rewrite Hu.
  rewrite make_nws_request_str. fold forecast_data. rewrite Ht.
  unfold periods_of in He. rewrite He.
  rewrite <- app_assoc. reflexivity.
Qed.

(** A forecast reference that is not a string is never requested: the
    second lookup counts as unavailable and the fallback is asked right
    after the points request. *)
Theorem get_forecast_reference_not_string (lat lon : float)
  (log : list request) (url : json) :
  let req := nws_request (points_url lat lon) in
  forecast_ref (payload_of (net log req)) = Ok url ->
  (forall u, url <> JStr u) ->
  get_forecast lat lon log
  = (fallback_result py_repr
       (payload_of (net (log ++ [req]) (openmeteo_request lat lon))),
     (log ++ [req; openmeteo_request lat lon])%list).
Proof.
  intros req Hu Hn. open_get_forecast.
  rewrite make_nws_request_str. fold req.
  rewrite (forecast_ref_truthy _ _ Hu).
  unfold forecast_ref in Hu. rewrite Hu.
  rewrite (make_nws_request_not_str net url _ Hn).
  cbn [py_truthy]. rewrite make_openmeteo_request_run.
  unfold fallback_result. rewrite <- app_assoc. cbn [app].
  destruct (py_truthy (payload_of (net (log ++ [req])
                                     (openmeteo_request lat lon))));
    reflexivity.
Qed.

(** Whatever the providers answer, [get_forecast] starts with the points
    request and makes at most three requests: at most two to the
    authoritative provider, and at most one to the fallback, which then
    comes last. *)
Theorem get_forecast_request_shapes (lat lon : float) (log : list request) :
  let req := nws_request (points_url lat lon) in
  let fallback := openmeteo_request lat lon in
  exists reqs,
    snd (get_forecast lat lon log) = (log ++ reqs)%list
    /\ (reqs = [req] \/ reqs = [req; fallback]
        \/ exists u, reqs = [req; nws_request u]
                     \/ reqs = [req; nws_request u; fallback]).
Proof.
  intros req fallback. open_get_forecast.
  rewrite make_nws_request_str. fold req.
  destruct (py_truthy (payload_of (net log req))).
  2:{ exists [req; fallback]. split; [|right; left; reflexivity].
      rewrite make_openmeteo_request_run. rewrite <- app_assoc.
      destruct (py_truthy _); reflexivity. }
  destruct (and_then (py_getitem (payload_of (net log req)) "properties") _)
    as [url|e].
  2:{ exists [req]. split; [reflexivity | left; reflexivity]. }
  assert (Hstr : (exists u, url = JStr u) \/ (forall u, url <> JStr u)).
  { destruct url; try (right; intros; discriminate). left. eexists.
    reflexivity. }
  destruct Hstr as [[u ->] | Hn].
  - rewrite make_nws_request_str.
    destruct (py_truthy (payload_of (net (log ++ [req]) (nws_request u)))).
    + exists [req; nws_request u].
      split; [|right; right; exists u; left; reflexivity].
      rewrite <- app_assoc.
      destruct (and_then (py_getitem _ "properties") _) as [periods|];
        [|reflexivity].
      destruct (and_then (py_slice_to 5 periods) _); reflexivity.
    + exists [req; nws_request u; fallback].
      split; [|right; right; exists u; right; reflexivity].
      rewrite make_openmeteo_request_run. repeat rewrite <- app_assoc.
      destruct (py_truthy _); reflexivity.
  - rewrite (make_nws_request_not_str net url _ Hn). cbn [py_truthy].
    exists [req; fallback]. split; [|right; left; reflexivity].
    rewrite make_openmeteo_request_run. rewrite <- app_assoc.
    destruct (py_truthy _); reflexivity.
Qed.

(** *** The fallback report *)

(** A fallback payload that is not an object, or whose [current_weather]
    is present but not an object (for instance [None]), makes the
    formatter raise [AttributeError]: only an absent block is defaulted. *)
Theorem format_openmeteo_forecast_not_object (data : json) :
  ((forall fields, data <> JObj fields) ->
   format_openmeteo_forecast data = Raise AttributeError)
  /\ (forall fields current,
        data = JObj fields ->
        lookup "current_weather" fields = Some current ->
        (forall cur, current <> JObj cur) ->
        format_openmeteo_forecast data = Raise AttributeError).
Proof.
  split.
  - intros H. destruct data; try reflexivity. exfalso. eapply H. reflexivity.
  - intros fields current -> Hc Hn. open_format_openmeteo_forecast.
    unfold py_get at 1 2. rewrite Hc. cbn [and_then].
    destruct (lookup "daily" fields); cbn [and_then];
      destruct current; try reflexivity; exfalso; eapply Hn; reflexivity.
Qed.

(** When the authoritative provider gives nothing and the fallback payload
    is truthy but not an object, the formatter's [AttributeError] leaves
    [get_forecast]. *)
Theorem get_forecast_fallback_not_object_raises (lat lon : float)
  (log : list request) :
  let req := nws_request (points_url lat lon) in
  let openmeteo_data :=
    payload_of (net (log ++ [req]) (openmeteo_request lat lon)) in
  py_truthy (payload_of (net log req)) = false ->
  py_truthy openmeteo_data = true ->
  (forall fields, openmeteo_data <> JObj fields) ->
  get_forecast lat lon log
  = (Raise AttributeError, (log ++ [req; openmeteo_request lat lon])%list).
Proof.
  intros req openmeteo_data Hp Ht Hn. open_get_forecast.
  rewrite make_nws_request_str. fold req. rewrite Hp.
  rewrite make_openmeteo_request_run. fold openmeteo_data. rewrite Ht.
  rewrite <- app_assoc. cbn [app].
  destruct openmeteo_data; try reflexivity. exfalso. eapply Hn. reflexivity.
Qed.

Lemma Forall2_map_seq {B : Type} (P : nat -> B -> Prop) (f : nat -> B)
  (indices : list nat) :
  (forall i, In i indices -> P i (f i)) ->
  Forall2 P indices (map f indices).
Proof.
  induction indices as [|i rest IH]; intros H; cbn [map]; constructor.
  - apply H. left. reflexivity.
  - apply IH. intros j Hj. apply H. right. exact Hj.
Qed.

(** The report holds one daily line for each of the first
    [min(3, len(time))] dates, in order, provided the three other arrays
    reach that far; in particular it holds fewer than three lines when
    fewer dates are given, and never more than three. *)
Theorem format_openmeteo_forecast_daily_lines
  (fields cur daily : list (string * json))
  (times maxs mins codes : list json) :
  py_get (JObj fields) "current_weather" (JObj []) = Ok (JObj cur) ->
  lookup "daily" fields = Some (JObj daily) ->
  lookup "time" daily = Some (JArr times) ->
  lookup "temperature_2m_max" daily = Some (JArr maxs) ->
  lookup "temperature_2m_min" daily = Some (JArr mins) ->
  lookup "weathercode" daily = Some (JArr codes) ->
  (Nat.min 3 (List.length times) <= List.length maxs)%nat ->
  (Nat.min 3 (List.length times) <= List.length mins)%nat ->
  (Nat.min 3 (List.length times) <= List.length codes)%nat ->
  format_openmeteo_forecast (JObj fields)
  = Ok (fold_left append (daily_lines py_repr times maxs mins codes)
          (current_block py_repr cur))
  /\ (List.length (daily_lines py_repr times maxs mins codes) <= 3)%nat.
Proof.
  intros Hc Hd Ht Ha Hb Hcode La Lb Lc. split.
  - assert (Hd' : py_get (JObj fields) "daily" (JObj []) = Ok (JObj daily))
      by (unfold py_get; rewrite Hd; reflexivity).
    rewrite (format_openmeteo_forecast_head py_repr fields cur (JObj daily)
               Hc Hd').
    unfold py_get. rewrite Ht. cbn [and_then py_len].
    apply daily_loop_ok. unfold daily_lines. apply Forall2_map_seq.
    intros i Hi. apply in_seq in Hi.
    unfold daily_line, py_getitem. rewrite Ht, Ha, Hb, Hcode.
    cbn [and_then py_index].
    rewrite (nth_error_nth' times JNull) by lia.
    rewrite (nth_error_nth' maxs JNull) by lia.
    rewrite (nth_error_nth' mins JNull) by lia.
    rewrite (nth_error_nth' codes JNull) by lia.
    reflexivity.
  - unfold daily_lines. rewrite length_map, length_seq. lia.
Qed.

(** Without a [daily] block, or with one that has no [time] array, the
    report is the current-weather block alone: the other arrays are not
    looked at. *)
Theorem format_openmeteo_forecast_without_days
  (fields cur daily : list (string * json)) :
  py_get (JObj fields) "current_weather" (JObj []) = Ok (JObj cur) ->
  py_get (JObj fields) "daily" (JObj []) = Ok (JObj daily) ->
  lookup "time" daily = None ->
  format_openmeteo_forecast (JObj fields) = Ok (current_block py_repr cur).
Proof.
  intros Hc Hd Ht.
  rewrite (format_openmeteo_forecast_head py_repr fields cur (JObj daily)
             Hc Hd).
  unfold py_get. rewrite Ht. reflexivity.
Qed.

(** Only the length of [time] is guarded: with at least one date, a
    missing [temperature_2m_max] array raises [KeyError] and an empty one
    raises [IndexError]. *)
Theorem format_openmeteo_forecast_missing_array
  (fields cur daily : list (string * json)) (t : json) (ts : list json) :
  py_get (JObj fields) "current_weather" (JObj []) = Ok (JObj cur) ->
  lookup "daily" fields = Some (JObj daily) ->
  lookup "time" daily = Some (JArr (t :: ts)) ->
  (lookup "temperature_2m_max" daily = None ->
   format_openmeteo_forecast (JObj fields) = Raise KeyError)
  /\ (lookup "temperature_2m_max" daily = Some (JArr []) ->
      format_openmeteo_forecast (JObj fields) = Raise IndexError).
Proof.
  intros Hc Hd Ht.
  assert (Hd' : py_get (JObj fields) "daily" (JObj []) = Ok (JObj daily))
    by (unfold py_get; rewrite Hd; reflexivity).
  rewrite (format_openmeteo_forecast_head py_repr fields cur (JObj daily)
             Hc Hd').
  unfold py_get. rewrite Ht. cbn [and_then py_len List.length].
  assert (Hs : exists rest, seq 0 (Nat.min 3 (S (List.length ts))) = 0%nat :: rest).
  { destruct (List.length ts) as [|[|n]]; eexists; reflexivity. }
  destruct Hs as [rest ->]. cbn [daily_loop].
  unfold daily_line, py_getitem. rewrite Ht. cbn [and_then py_index nth_error].
  split; intros Ha; rewrite Ha; reflexivity.
Qed.

End Coverage.

(** ** The further properties at concrete inputs *)

Lemma geocode_city_first_match_witness :
  geocode_city ex_conv None
    (always (ok_response
               (JArr [JObj [("lat", JStr "40.5"); ("lon", JStr "-74.25")];
                      JStr "ignored"])))
    "Staten Island" []
  = (Ok (JObj [("latitude", JFloat ex_lat); ("longitude", JFloat ex_lon);
               ("display_name", JNull)]),
     [geocode_request None "Staten Island"]).
Proof.
  apply (geocode_city_first_match ex_conv None
           (always (ok_response
                      (JArr [JObj [("lat", JStr "40.5");
                                   ("lon", JStr "-74.25")];
                             JStr "ignored"])))
           "Staten Island" []
           (mkResponse 200
              (Some (JArr [JObj [("lat", JStr "40.5"); ("lon", JStr "-74.25")];
                           JStr "ignored"])))
           [("lat", JStr "40.5"); ("lon", JStr "-74.25")] [JStr "ignored"]
           (JStr "40.5") (JStr "-74.25") ex_lat ex_lon);
    try reflexivity.
  cbn [status_code]. lia.
Defined.

Lemma get_alerts_falsy_payload_witness :
  get_alerts ex_repr (always (ok_response (JObj []))) "NY" []
  = (Ok MSG_ALERTS_UNAVAILABLE,
     [nws_request "https://api.weather.gov/alerts/active/area/NY"]).
Proof.
  apply (get_alerts_falsy_payload ex_repr (always (ok_response (JObj [])))
           "NY" []).
  reflexivity.
Defined.

Lemma get_alerts_scalar_payload_raises_witness :
  get_alerts ex_repr (always (ok_response (JInt 7))) "NY" []
  = (Raise TypeError,
     [nws_request "https://api.weather.gov/alerts/active/area/NY"]).
Proof.
  apply (get_alerts_scalar_payload_raises ex_repr
           (always (ok_response (JInt 7))) "NY" []).
  - reflexivity.
  - left. exists 7%Z. reflexivity.
Defined.

Lemma get_alerts_falsy_features_witness :
  get_alerts ex_repr (always (ok_response (JObj [("features", JNull)])))
    "NY" []
  = (Ok MSG_NO_ALERTS,
     [nws_request "https://api.weather.gov/alerts/active/area/NY"]).
Proof.
  apply (get_alerts_falsy_features ex_repr
           (always (ok_response (JObj [("features", JNull)]))) "NY" []
           [("features", JNull)] JNull); reflexivity.
Defined.

Lemma get_alerts_malformed_alert_raises_witness :
  get_alerts ex_repr
    (always (ok_response
               (JObj [("features",
                       JArr [ex_feature "Flood Watch";
                             JObj [("id", JStr "a2")];
                             ex_feature "Wind Advisory"])])))
    "NY" []
  = (Raise KeyError,
     [nws_request "https://api.weather.gov/alerts/active/area/NY"]).
Proof.
  apply (get_alerts_malformed_alert_raises ex_repr
           (always (ok_response
                      (JObj [("features",
                              JArr [ex_feature "Flood Watch";
                                    JObj [("id", JStr "a2")];
                                    ex_feature "Wind Advisory"])])))
           "NY" []
           [("features",
             JArr [ex_feature "Flood Watch"; JObj [("id", JStr "a2")];
                   ex_feature "Wind Advisory"])]
           [ex_feature "Flood Watch"] [ex_feature "Wind Advisory"]
           [alert_text ex_repr [("event", JStr "Flood Watch")]]
           (JObj [("id", JStr "a2")]) KeyError).
  - reflexivity.
  - reflexivity.
  - repeat constructor.
  - reflexivity.
Defined.

Lemma get_forecast_first_five_decide_witness :
  get_forecast ex_repr
    (scripted [ok_response ex_points;
               ok_response (ex_forecast [ex_period "Today" 71;
                                         ex_period_without_name])])
    ex_lat ex_lon []
  = (Raise KeyError,
     [nws_request "https://api.weather.gov/points/40.5,-74.25";
      nws_request ex_forecast_url]).
Proof.
  apply (get_forecast_first_five_decide ex_repr
           (scripted [ok_response ex_points;
                      ok_response (ex_forecast [ex_period "Today" 71;
                                                ex_period_without_name])])
           ex_lat ex_lon [] ex_forecast_url
           [ex_period "Today" 71; ex_period_without_name]); reflexivity.
Defined.

Lemma get_forecast_malformed_points_raises_witness :
  get_forecast ex_repr (always (ok_response (JArr [JInt 1]))) ex_lat ex_lon []
  = (Raise TypeError,
     [nws_request "https://api.weather.gov/points/40.5,-74.25"]).
Proof.
  apply (get_forecast_malformed_points_raises ex_repr
           (always (ok_response (JArr [JInt 1]))) ex_lat ex_lon [] TypeError);
    reflexivity.
Defined.

Lemma get_forecast_malformed_forecast_raises_witness :
  get_forecast ex_repr
    (scripted [ok_response ex_points; ok_response (JStr "maintenance")])
    ex_lat ex_lon []
  = (Raise TypeError,
     [nws_request "https://api.weather.gov/points/40.5,-74.25";
      nws_request ex_forecast_url]).
Proof.
  apply (get_forecast_malformed_forecast_raises ex_repr
           (scripted [ok_response ex_points;
                      ok_response (JStr "maintenance")])
           ex_lat ex_lon [] ex_forecast_url TypeError); reflexivity.
Defined.

Lemma get_forecast_reference_not_string_witness :
  get_forecast ex_repr
    (scripted [ok_response
                 (JObj [("properties", JObj [("forecast", JNull)])])])
    ex_lat ex_lon []
  = (Ok MSG_NO_PROVIDER,
     [nws_request "https://api.weather.gov/points/40.5,-74.25";
      openmeteo_request ex_repr ex_lat ex_lon]).
Proof.
  apply (get_forecast_reference_not_string ex_repr
           (scripted [ok_response
                        (JObj [("properties", JObj [("forecast", JNull)])])])
           ex_lat ex_lon [] JNull).
  - reflexivity.
  - intros u. discriminate.
Defined.

Lemma get_forecast_fallback_not_object_raises_witness :
  get_forecast ex_repr (scripted [Failed; ok_response (JArr [JInt 1])])
    ex_lat ex_lon []
  = (Raise AttributeError,
     [nws_request "https://api.weather.gov/points/40.5,-74.25";
      openmeteo_request ex_repr ex_lat ex_lon]).
Proof.
  apply (get_forecast_fallback_not_object_raises ex_repr
           (scripted [Failed; ok_response (JArr [JInt 1])]) ex_lat ex_lon []).
  - reflexivity.
  - reflexivity.
  - intros fields. discriminate.
Defined.

Lemma format_openmeteo_forecast_not_object_witness :
  format_openmeteo_forecast ex_repr (JArr [JInt 1]) = Raise AttributeError
  /\ format_openmeteo_forecast ex_repr (JObj [("current_weather", JNull)])
     = Raise AttributeError.
Proof.
  split.
  - apply (proj1 (format_openmeteo_forecast_not_object ex_repr
                    (JArr [JInt 1]))).
    intros fields. discriminate.
  - apply (proj2 (format_openmeteo_forecast_not_object ex_repr
                    (JObj [("current_weather", JNull)]))
             [("current_weather", JNull)] JNull).
    + reflexivity.
    + reflexivity.
    + intros cur. discriminate.
Defined.

Lemma format_openmeteo_forecast_daily_lines_witness :
  format_openmeteo_forecast ex_repr
    (JObj [("daily",
            JObj [("time", JArr [JStr "2024-05-01"; JStr "2024-05-02"]);
                  ("temperature_2m_max", JArr [JInt 21; JInt 22]);
                  ("temperature_2m_min", JArr [JInt 11; JInt 12]);
                  ("weathercode", JArr [JInt 0; JInt 1])])])
  = Ok ((current_block ex_repr []
         ++ "2024-05-01: High 21°C, Low 11°C, Code 0" ++ NL)
        ++ "2024-05-02: High 22°C, Low 12°C, Code 1" ++ NL).
Proof.
  apply (proj1 (format_openmeteo_forecast_daily_lines ex_repr
           [("daily",
             JObj [("time", JArr [JStr "2024-05-01"; JStr "2024-05-02"]);
                   ("temperature_2m_max", JArr [JInt 21; JInt 22]);
                   ("temperature_2m_min", JArr [JInt 11; JInt 12]);
                   ("weathercode", JArr [JInt 0; JInt 1])])]
           []
           [("time", JArr [JStr "2024-05-01"; JStr "2024-05-02"]);
            ("temperature_2m_max", JArr [JInt 21; JInt 22]);
            ("temperature_2m_min", JArr [JInt 11; JInt 12]);
            ("weathercode", JArr [JInt 0; JInt 1])]
           [JStr "2024-05-01"; JStr "2024-05-02"]
           [JInt 21; JInt 22] [JInt 11; JInt 12] [JInt 0; JInt 1]
           eq_refl eq_refl eq_refl eq_refl eq_refl eq_refl
           (le_n 2) (le_n 2) (le_n 2))).
Defined.

Lemma format_openmeteo_forecast_without_days_witness :
  format_openmeteo_forecast ex_repr
    (JObj [("current_weather", JObj [("temperature", JInt 18)]);
           ("daily", JObj [("temperature_2m_max", JArr [JInt 21])])])
  = Ok (current_block ex_repr [("temperature", JInt 18)]).
Proof.
  apply (format_openmeteo_forecast_without_days ex_repr
           [("current_weather", JObj [("temperature", JInt 18)]);
            ("daily", JObj [("temperature_2m_max", JArr [JInt 21])])]
           [("temperature", JInt 18)]
           [("temperature_2m_max", JArr [JInt 21])]); reflexivity.
Defined.

Lemma format_openmeteo_forecast_missing_array_witness :
  format_openmeteo_forecast ex_repr
    (JObj [("daily", JObj [("time", JArr [JStr "2024-05-01"])])])
  = Raise KeyError
  /\ format_openmeteo_forecast ex_repr
       (JObj [("daily", JObj [("time", JArr [JStr "2024-05-01"]);
                              ("temperature_2m_max", JArr [])])])
     = Raise IndexError.
Proof.
  split.
  - apply (proj1 (format_openmeteo_forecast_missing_array ex_repr
                    [("daily", JObj [("time", JArr [JStr "2024-05-01"])])]
                    [] [("time", JArr [JStr "2024-05-01"])]
                    (JStr "2024-05-01") [] eq_refl eq_refl eq_refl)).
    reflexivity.
  - apply (proj2 (format_openmeteo_forecast_missing_array ex_repr
                    [("daily", JObj [("time", JArr [JStr "2024-05-01"]);
                                     ("temperature_2m_max", JArr [])])]
                    []
                    [("time", JArr [JStr "2024-05-01"]);
                     ("temperature_2m_max", JArr [])]
                    (JStr "2024-05-01") [] eq_refl eq_refl eq_refl)).
    reflexivity.
Defined.
